(** * slack_delete.py: listing and deleting media files of a Slack workspace

    A shallow embedding of [src/slack_delete.py] and the properties of its
    three functions [list_files], [delete_files] and [main].

    Modelling choices.
    - Python values that [json.loads] can produce are the type [pyval];
      a Python [dict] with string keys is a [gmap string pyval].  JSON
      floats are left out: the remote reports sizes and timestamps as
      integers.
    - A Python [str] is a [string] (its UTF-8 bytes); the three needles of
      the substring test are ASCII, for which the byte-wise and the
      character-wise tests agree.
    - The script talks to the outside through [print], [requests.get],
      [time.sleep] and the clock.  The first three are recorded, in order,
      in a trace of [event]s.  What the outside answers is a [world]: a
      record of oracles that see the trace so far.
    - Exceptions are values of [exn]; a computation is a function from the
      trace to a [result] and the new trace, so the trace survives a raise.
      The remote call, the JSON parser, the sleep and the conversions can
      raise; writing to the console and reading the clock cannot. *)

From stdpp Require Import base strings gmap list.
From Stdlib Require Import ZArith Lia Ascii.

Set Warnings "-register-all".
#[local] Open Scope Z_scope.

(** ** Python values *)

Inductive pyval : Type :=
| PNone
| PBool (b : bool)
| PInt (z : Z)
| PStr (s : string)
| PList (l : list pyval)
| PDict (d : gmap string pyval).

Inductive exn : Type :=
| KeyboardInterrupt
| SystemExit (code : Z)
| KeyError (key : string)
| TypeError
| ValueError
| UnboundLocalError (var : string)
| OtherError (name : string).

Inductive result (A : Type) : Type :=
| Ok (a : A)
| Raise (e : exn).
Arguments Ok {A} a.
Arguments Raise {A} e.

#[export] Instance result_ret : MRet result := @Ok.
#[export] Instance result_bind : MBind result :=
  fun A B f r => match r with Ok a => f a | Raise e => Raise e end.

(** [d[k]] on a dict. *)
Definition dict_getitem (d : gmap string pyval) (k : string) : result pyval :=
  match d !! k with
  | Some v => Ok v
  | None => Raise (KeyError k)
  end.

(** [v[k]] with a string subscript [k]: only a dict accepts it. *)
Definition getitem (v : pyval) (k : string) : result pyval :=
  match v with
  | PDict d => dict_getitem d k
  | _ => Raise TypeError
  end.

(** Truth value of an object, as [if v:] tests it. *)
Definition truthy (v : pyval) : bool :=
  match v with
  | PNone => false
  | PBool b => b
  | PInt z => negb (z =? 0)
  | PStr s => negb (String.eqb s "")
  | PList l => match l with [] => false | _ => true end
  | PDict d => match map_to_list d with [] => false | _ => true end
  end.

(** [needle in hay] on two strings: [needle] occurs in [hay]. *)
Fixpoint str_contains (needle hay : string) : bool :=
  String.prefix needle hay ||
  match hay with
  | EmptyString => false
  | String _ rest => str_contains needle rest
  end.

(** [needle in hay] for a string [needle] and any object [hay]. *)
Definition py_contains (needle : string) (hay : pyval) : result bool :=
  match hay with
  | PStr s => Ok (str_contains needle s)
  | PList l =>
      Ok (existsb (fun x => match x with
                            | PStr s => String.eqb s needle
                            | _ => false
                            end) l)
  | PDict d => Ok (match d !! needle with Some _ => true | None => false end)
  | _ => Raise TypeError
  end.

(** [for f in v]: the items the loop sees.  A dict yields its keys (their
    order plays no role below: every key is a string). *)
Definition py_iter (v : pyval) : result (list pyval) :=
  match v with
  | PList l => Ok l
  | PStr s =>
      Ok (map (fun c => PStr (String c EmptyString))
              (String.list_ascii_of_string s))
  | PDict d => Ok (map (fun kv => PStr (fst kv)) (map_to_list d))
  | _ => Raise TypeError
  end.

(** [sum(l)] and [any(l)]. *)
Definition py_sum (l : list Z) : Z := fold_left Z.add l 0.
Definition py_any (l : list bool) : bool := existsb (fun b => b) l.

(** ** Events and the outside world *)

(** What a [print] call writes: a literal, a [%]-formatted line (kept as the
    format and its argument tuple), or the list of 5-tuples of line 112. *)
Inductive output : Type :=
| Text (s : string)
| Formatted (fmt : string) (args : list pyval)
| Listing (rows : list (list pyval)).

Inductive event : Type :=
| EPrint (o : output)
| EGet (uri : string) (params : gmap string pyval)
| ESleep (secs : Z).

Definition trace : Type := list event.

Record world : Type := {
  (** [requests.get(uri, params=params).text], given the trace so far *)
  requests_get : trace -> string -> gmap string pyval -> result string;
  (** [time.sleep(secs)]: returns, or is interrupted *)
  time_sleep : trace -> Z -> result unit;
  (** [int(time.time())] *)
  time_time : trace -> Z;
  (** [datetime.now().strftime('%Y-%m-%d %H:%M:%S')] *)
  datetime_now : trace -> string;
  (** [json.loads(text)] *)
  json_loads : string -> result pyval;
  (** [int(s)] on a string *)
  int_of_str : string -> result Z;
  (** [datetime.fromtimestamp(v).strftime('%Y-%m-%d %H:%M:%S')] *)
  fromtimestamp : pyval -> result string
}.

(** ** Computations: trace passing with exceptions *)

Definition M (A : Type) : Type := trace -> result A * trace.

#[export] Instance M_ret : MRet M := fun A a tr => (Ok a, tr).
#[export] Instance M_bind : MBind M :=
  fun A B f m tr =>
    match m tr with
    | (Ok a, tr') => f a tr'
    | (Raise e, tr') => (Raise e, tr')
    end.

Definition raise {A : Type} (e : exn) : M A := fun tr => (Raise e, tr).
Definition lift {A : Type} (r : result A) : M A := fun tr => (r, tr).

(** The events a run adds are those after the first [length tr0] ones. *)
Definition added (tr0 tr : trace) : trace := drop (length tr0) tr.

Definition is_get (e : event) : bool :=
  match e with EGet _ _ => true | _ => false end.
Definition is_io (e : event) : bool :=
  match e with EPrint _ => false | _ => true end.

(** The remote requests of a trace, and its requests and sleeps. *)
Definition requests (tr : trace) : trace := List.filter is_get tr.
Definition remote_io (tr : trace) : trace := List.filter is_io tr.

(** ** The script *)

Definition mimetypes : list string := ["audio"; "image"; "video"]%string.
Definition wait_seconds : Z := 2.

Definition files_list_uri : string := "https://slack.com/api/files.list".
Definition files_delete_uri : string := "https://slack.com/api/files.delete".

Section Script.

Variable w : world.

Definition print (o : output) : M unit := fun tr => (Ok tt, tr ++ [EPrint o]).

Definition get_text (uri : string) (params : gmap string pyval) : M string :=
  fun tr => (requests_get w tr uri params, tr ++ [EGet uri params]).

Definition sleep (secs : Z) : M unit :=
  fun tr => (time_sleep w tr secs, tr ++ [ESleep secs]).

(** py: [current_timestamp] *)
Definition current_timestamp : M string :=
  fun tr => (Ok (datetime_now w tr), tr).

(** py: [calculate_days] *)
Definition calculate_days (days : Z) : M Z :=
  fun tr => (Ok (time_time w tr - days * 24 * 60 * 60), tr).

(** [int(v)] *)
Definition py_int (v : pyval) : result Z :=
  match v with
  | PInt z => Ok z
  | PBool b => Ok (if b then 1 else 0)
  | PStr s => int_of_str w s
  | _ => Raise TypeError
  end.

(** [any([mimetype in f['mimetype'] for mimetype in mimetypes])] *)
Definition is_media (f : pyval) : result bool :=
  bs ← mapM (fun mimetype =>
               m ← getitem f "mimetype"; py_contains mimetype m)
            mimetypes;
  Ok (py_any bs).

(** The dict appended to [files] for a listed file [f] (lines 86-92); the
    items are evaluated in the order written. *)
Definition file_record (f : pyval) : result (gmap string pyval) :=
  id ← getitem f "id";
  name ← getitem f "name";
  ts ← getitem f "timestamp";
  t ← fromtimestamp w ts;
  m ← getitem f "mimetype";
  sz ← getitem f "size";
  Ok (<["id" := id]> (<["name" := name]> (<["timestamp" := PStr t]>
       (<["mimetype" := m]> (<["size" := sz]> ∅))))).

(** The loop of lines 84-92 over the items of [resp], [files] being the
    list built so far. *)
Fixpoint collect (resp : list pyval) (files : list (gmap string pyval))
  : result (list (gmap string pyval)) :=
  match resp with
  | [] => Ok files
  | f :: rest =>
      b ← is_media f;
      if (b : bool) then r ← file_record f; collect rest (files ++ [r])
      else collect rest files
  end.

(** The [params] of the listing request (lines 74-77). *)
Definition list_params (token : string) (days count : Z)
  : M (gmap string pyval) :=
  if negb (days =? 0) then
    ts_to ← calculate_days days;
    mret (<["token" := PStr token]> (<["count" := PInt count]>
           (<["ts_to" := PInt ts_to]> ∅)))
  else
    mret (<["token" := PStr token]> (<["count" := PInt count]> ∅)).

(** py: [list_files] *)
Definition list_files (token : string) (days count : Z)
  : M (list (gmap string pyval)) :=
  now ← current_timestamp;
  print (Formatted "[*] %s delete files older than %s days"
                   [PStr now; PInt days]);;
  params ← list_params token days count;
  let uri := files_list_uri in
  text ← get_text uri params;
  resp ← lift (v ← json_loads w text; getitem v "files");
  items ← lift (py_iter resp);
  lift (collect items []).

(** The local variables of [delete_files]; [None] is an unbound name. *)
Record locals : Type := {
  count : option Z;
  size_to_delete : option Z;
  num_files : option Z
}.

Definition local (name : string) (v : option Z) : result Z :=
  match v with
  | Some z => Ok z
  | None => Raise (UnboundLocalError name)
  end.

(** One round of the loop of lines 117-125, after [count += 1]. *)
Definition delete_item (token uri : string) (f : gmap string pyval) : M unit :=
  id ← lift (dict_getitem f "id");
  let params := <["token" := PStr token]> (<["file" := id]> ∅) in
  text ← get_text uri params;
  dresponse ← lift (json_loads w text);
  sleep wait_seconds;;
  ok ← lift (getitem dresponse "ok");
  if truthy ok then
    now ← current_timestamp;
    id ← lift (dict_getitem f "id");
    name ← lift (dict_getitem f "name");
    ts ← lift (dict_getitem f "timestamp");
    print (Formatted "[+] %s Deleted: [%s] %s (%s)" [PStr now; id; name; ts])
  else
    now ← current_timestamp;
    id ← lift (dict_getitem f "id");
    name ← lift (dict_getitem f "name");
    reason ← lift (getitem dresponse "error");
    print (Formatted "[!] %s Unable to delete: [%s] %s, reason: %s"
                     [PStr now; id; name; reason]).

(** The loop of lines 117-125; [c] is the value of [count] on entry.  The
    counter is returned also when a round raises. *)
Fixpoint delete_loop (token uri : string) (files : list (gmap string pyval))
  (c : Z) (tr : trace) : result unit * Z * trace :=
  match files with
  | [] => (Ok tt, c, tr)
  | f :: rest =>
      let c := c + 1 in
      match delete_item token uri f tr with
      | (Ok _, tr') => delete_loop token uri rest c tr'
      | (Raise e, tr') => (Raise e, c, tr')
      end
  end.

(** A row of the table of line 112. *)
Definition listing_row (f : gmap string pyval) : result (list pyval) :=
  id ← dict_getitem f "id";
  name ← dict_getitem f "name";
  ts ← dict_getitem f "timestamp";
  m ← dict_getitem f "mimetype";
  sz ← dict_getitem f "size";
  Ok [id; name; ts; m; sz].

(** [[int(f['size']) for f in files]] *)
Definition sizes (files : list (gmap string pyval)) : result (list Z) :=
  mapM (fun f => v ← dict_getitem f "size"; py_int v) files.

(** The two lines printed before the loop (lines 111-112): the totals, then
    the table of the records. *)
Definition report (files : list (gmap string pyval)) (n size : Z) : M unit :=
  now ← current_timestamp;
  print (Formatted "[i] %s found %s files in %s bytes"
                   [PStr now; PInt n; PInt size]);;
  rows ← lift (mapM listing_row files);
  print (Listing rows).

(** The [try] block of [delete_files] (lines 106-125): the outcome, the
    local variables when the block is left, and the trace. *)
Definition delete_try (token : string) (files : list (gmap string pyval))
  (view_only : bool) (tr : trace) : result unit * locals * trace :=
  let uri := files_list_uri in
  match sizes files with
  | Raise e =>
      (Raise e,
       {| count := Some 0; size_to_delete := None; num_files := None |}, tr)
  | Ok ss =>
      let size := py_sum ss in
      let n := Z.of_nat (length files) in
      let bound c :=
        {| count := Some c;
           size_to_delete := Some size;
           num_files := Some n |} in
      match report files n size tr with
      | (Raise e, tr1) => (Raise e, bound 0, tr1)
      | (Ok _, tr1) =>
          if view_only then (Ok tt, bound 0, tr1)
          else
            let '(r, c, tr2) := delete_loop token uri files 0 tr1 in
            (r, bound c, tr2)
      end
  end.

(** The [finally] block (line 128). *)
Definition delete_finally (l : locals) : M unit :=
  now ← current_timestamp;
  size ← lift (local "size_to_delete" (size_to_delete l));
  n ← lift (local "num_files" (num_files l));
  c ← lift (local "count" (count l));
  print (Formatted
    "[i] %s Attempted to delete %s bytes in %s files, actually deleted %s files"
    [PStr now; PInt size; PInt n; PInt c]).

(** py: [delete_files].  The [finally] block runs however the [try] block
    ends; an exception of its own replaces the pending outcome. *)
Definition delete_files (token : string) (files : list (gmap string pyval))
  (view_only : bool) : M unit :=
  fun tr =>
    let '(r, l, tr1) := delete_try token files view_only tr in
    match delete_finally l tr1 with
    | (Ok _, tr2) => (r, tr2)
    | (Raise e, tr2) => (Raise e, tr2)
    end.

(** The parsed command line. *)
Record options : Type := {
  o_token : string;
  o_days : Z;
  o_count : Z;
  o_dry_run : bool
}.

Definition backspace : ascii := ascii_of_nat 8.
Definition aborted : string :=
  String backspace (String backspace "[-] Aborted").

(** The [try] block of [main] (lines 32-38). *)
Definition main_try (o : options) : M unit :=
  print (Text "[*] Fetching file list..");;
  files ← list_files (o_token o) (o_days o) (o_count o);
  print (Text "[*] Deleting files..");;
  delete_files (o_token o) files (o_dry_run o);;
  print (Text "[*] Done").

(** py: [main], after the command line is parsed.  [exit(1)] raises
    [SystemExit(1)]. *)
Definition main (o : options) : M unit :=
  fun tr =>
    match main_try o tr with
    | (Raise KeyboardInterrupt, tr') =>
        (print (Text aborted);; raise (SystemExit 1)) tr'
    | other => other
    end.

End Script.

(** ** Specification vocabulary *)

(** [needle] is a substring of [hay]. *)
Definition occurs_in (needle hay : string) : Prop :=
  exists pre post : string, hay = pre +:+ needle +:+ post.

(** A MIME type of one of the three media kinds. *)
Definition media_mimetype (m : string) : Prop :=
  occurs_in "audio" m \/ occurs_in "image" m \/ occurs_in "video" m.

(** A file object of a listing response: a dict with the five fields, a
    string as MIME type and a timestamp the runtime can format. *)
Definition listed_file (w : world) (f : pyval) : Prop :=
  exists d id name ts t m sz,
    f = PDict d /\
    d !! "id" = Some id /\ d !! "name" = Some name /\
    d !! "timestamp" = Some ts /\ fromtimestamp w ts = Ok t /\
    d !! "mimetype" = Some (PStr m) /\ d !! "size" = Some sz.

(** The progress line [list_files] prints first (line 72). *)
Definition banner (w : world) (days : Z) (tr : trace) : event :=
  EPrint (Formatted "[*] %s delete files older than %s days"
                    [PStr (datetime_now w tr); PInt days]).

(** The line with the totals printed before the loop (line 111) and the
    final line printed by the [finally] block (line 128). *)
Definition found (w : world) (n size : Z) (tr : trace) : event :=
  EPrint (Formatted "[i] %s found %s files in %s bytes"
                    [PStr (datetime_now w tr); PInt n; PInt size]).

Definition summary (w : world) (size n c : Z) (tr : trace) : event :=
  EPrint (Formatted
    "[i] %s Attempted to delete %s bytes in %s files, actually deleted %s files"
    [PStr (datetime_now w tr); PInt size; PInt n; PInt c]).

(** The line printed for a record the remote refused to delete (line 125). *)
Definition unable (w : world) (id name reason : pyval) (tr : trace) : event :=
  EPrint (Formatted "[!] %s Unable to delete: [%s] %s, reason: %s"
                    [PStr (datetime_now w tr); id; name; reason]).

(** The request of the loop for a record with id [id] (lines 119-120). *)
Definition item_request (token : string) (id : pyval) : event :=
  EGet files_list_uri (<["token" := PStr token]> (<["file" := id]> ∅)).

(** A record as [list_files] builds it: the five fields are present and
    [int] accepts the size. *)
Definition well_formed (w : world) (f : gmap string pyval) : Prop :=
  is_Some (f !! "id") /\ is_Some (f !! "name") /\
  is_Some (f !! "timestamp") /\ is_Some (f !! "mimetype") /\
  exists v z, f !! "size" = Some v /\ py_int w v = Ok z.

(** [z] is the size of record [f], as line 109 reads it. *)
Definition size_of (w : world) (f : gmap string pyval) (z : Z) : Prop :=
  exists v, f !! "size" = Some v /\ py_int w v = Ok z.

(** The remote answers every request with a JSON object that has the field
    [ok] and, when [ok] is false, the field [error]. *)
Definition answers (w : world) : Prop :=
  forall tr uri params, exists text v ok,
    requests_get w tr uri params = Ok text /\
    json_loads w text = Ok v /\
    getitem v "ok" = Ok ok /\
    (truthy ok = false -> exists reason, getitem v "error" = Ok reason).

(** No sleep is interrupted. *)
Definition uninterrupted (w : world) : Prop :=
  forall tr secs, time_sleep w tr secs = Ok tt.

(** An event other than a request, or a request sent to [uri]. *)
Definition sent_to (uri : string) (e : event) : Prop :=
  match e with
  | EGet u _ => u = uri
  | _ => True
  end.

(** The Lister, then the Deleter, as [main] runs them from trace [tr]:
    one of the two raises [e] and leaves the trace [tr']. *)
Definition sequence_raises (w : world) (o : options) (tr : trace) (e : exn)
    (tr' : trace) : Prop :=
  let tr0 := tr ++ [EPrint (Text "[*] Fetching file list..")] in
  list_files w (o_token o) (o_days o) (o_count o) tr0 = (Raise e, tr') \/
  exists files tr1,
    list_files w (o_token o) (o_days o) (o_count o) tr0 = (Ok files, tr1) /\
    delete_files w (o_token o) files (o_dry_run o)
      (tr1 ++ [EPrint (Text "[*] Deleting files..")]) = (Raise e, tr').

(** ** Sample data

    A workspace with three files, of which two are media files, and a
    remote that refuses to delete the first ([not_found]).  The clock is
    mocked at epoch 2 * 2592000. *)

Definition sample_file (id name mimetype : string) (size : Z) : pyval :=
  PDict (<["id" := PStr id]> (<["name" := PStr name]>
          (<["timestamp" := PInt 0]> (<["mimetype" := PStr mimetype]>
            (<["size" := PInt size]> ∅))))).

Definition sample_listing : list pyval :=
  [sample_file "F1" "a.png" "image/png" 100;
   sample_file "F2" "b.txt" "text/plain" 50;
   sample_file "F3" "c.mp4" "video/mp4" 7].

Definition sample_body : gmap string pyval :=
  <["ok" := PBool true]> (<["files" := PList sample_listing]> ∅).

Definition sample_record (id name mimetype : string) (size : Z)
  : gmap string pyval :=
  <["id" := PStr id]> (<["name" := PStr name]>
    (<["timestamp" := PStr "1970-01-01 00:00:00"]>
      (<["mimetype" := PStr mimetype]> (<["size" := PInt size]> ∅)))).

Definition sample_records : list (gmap string pyval) :=
  [sample_record "F1" "a.png" "image/png" 100;
   sample_record "F3" "c.mp4" "video/mp4" 7].

Definition sample_rows : list (list pyval) :=
  [[PStr "F1"; PStr "a.png"; PStr "1970-01-01 00:00:00"; PStr "image/png";
    PInt 100];
   [PStr "F3"; PStr "c.mp4"; PStr "1970-01-01 00:00:00"; PStr "video/mp4";
    PInt 7]].

Definition sample_loads (text : string) : result pyval :=
  if String.eqb text "listing" then Ok (PDict sample_body)
  else if String.eqb text "deleted" then Ok (PDict (<["ok" := PBool true]> ∅))
  else if String.eqb text "not_found" then
    Ok (PDict (<["ok" := PBool false]> (<["error" := PStr "not_found"]> ∅)))
  else Raise ValueError.

(** The remote: a listing unless a file is named; [F1] cannot be deleted. *)
Definition sample_get (params : gmap string pyval) : result string :=
  match params !! "file" with
  | None => Ok "listing"
  | Some (PStr id) =>
      if String.eqb id "F1" then Ok "not_found" else Ok "deleted"
  | Some _ => Ok "deleted"
  end.

(** The same remote, with the connection lost when [F3] is asked for. *)
Definition failing_get (params : gmap string pyval) : result string :=
  match params !! "file" with
  | Some (PStr id) =>
      if String.eqb id "F3" then Raise (OtherError "ConnectionError")
      else sample_get params
  | _ => sample_get params
  end.

Definition make_world (get : gmap string pyval -> result string)
    (slept : result unit) : world :=
  {| requests_get := fun _ _ params => get params;
     time_sleep := fun _ _ => slept;
     time_time := fun _ => 2 * 2592000;
     datetime_now := fun _ => "2026-03-02 00:00:00";
     json_loads := sample_loads;
     int_of_str := fun _ => Raise ValueError;
     fromtimestamp := fun v =>
       match v with
       | PInt _ => Ok "1970-01-01 00:00:00"
       | _ => Raise TypeError
       end |}.

Definition sample_world : world := make_world sample_get (Ok tt).
Definition failing_world : world := make_world failing_get (Ok tt).
Definition listing_world : world := make_world (fun _ => Ok "listing") (Ok tt).
Definition interrupted_world : world :=
  make_world sample_get (Raise KeyboardInterrupt).

Definition sample_options : options :=
  {| o_token := "xoxp"; o_days := 30; o_count := 1000; o_dry_run := false |}.

(** ** Further vocabulary *)

(** The file objects the loop of [list_files] appends a record for. *)
Definition kept (f : pyval) : bool :=
  match is_media f with
  | Ok true => true
  | _ => false
  end.

(** The keys of the dict built at lines 86-92. *)
Definition record_keys : gset string :=
  {["id"; "name"; "timestamp"; "mimetype"; "size"]}.

(** A file object that is no media file: a dict whose MIME type is a string
    without any of the three needles.  Nothing is asked of other fields. *)
Definition skipped_file (f : pyval) : Prop :=
  exists d m, f = PDict d /\ d !! "mimetype" = Some (PStr m) /\
              ~ media_mimetype m.

(** The events [delete_files] can add: formatted lines and the table,
    requests to the listing endpoint, sleeps of [wait_seconds]. *)
Definition deleter_event (e : event) : Prop :=
  match e with
  | EPrint (Text _) => False
  | EPrint _ => True
  | EGet uri _ => uri = files_list_uri
  | ESleep secs => secs = wait_seconds
  end.

(** The line printed for a deleted record (line 123). *)
Definition deleted (w : world) (id name ts : pyval) (tr : trace) : event :=
  EPrint (Formatted "[+] %s Deleted: [%s] %s (%s)"
                    [PStr (datetime_now w tr); id; name; ts]).

(** The size of record [f] cannot be read: the key is missing or [int]
    refuses the value. *)
Definition unreadable_size (w : world) (f : gmap string pyval) : Prop :=
  f !! "size" = None \/
  exists v e, f !! "size" = Some v /\ py_int w v = Raise e.

(** A remote that answers every request with the error object of a refused
    call, which has no [files] field. *)
Definition denied_world : world :=
  make_world (fun _ => Ok "not_found") (Ok tt).

(** A remote whose answers are the JSON object [{"ok": false}]. *)
Definition terse_world : world :=
  {| requests_get := fun _ _ _ => Ok "terse";
     time_sleep := fun _ _ => Ok tt;
     time_time := fun _ => 2 * 2592000;
     datetime_now := fun _ => "2026-03-02 00:00:00";
     json_loads := fun _ => Ok (PDict (<["ok" := PBool false]> ∅));
     int_of_str := fun _ => Raise ValueError;
     fromtimestamp := fun _ => Ok "1970-01-01 00:00:00" |}.

(** A listing in which a text file has no other field than its MIME type,
    and one in which a file object has no MIME type at all. *)
Definition sparse_listing : list pyval :=
  [sample_file "F1" "a.png" "image/png" 100;
   PDict (<["mimetype" := PStr "text/plain"]> ∅);
   sample_file "F3" "c.mp4" "video/mp4" 7].

Definition broken_listing : list pyval :=
  [sample_file "F1" "a.png" "image/png" 100;
   PDict (<["id" := PStr "F2"]> ∅);
   sample_file "F3" "c.mp4" "video/mp4" 7].

(** A world whose every answer is the listing [resp]. *)
Definition world_listing (resp : list pyval) : world :=
  {| requests_get := fun _ _ _ => Ok "listing";
     time_sleep := fun _ _ => Ok tt;
     time_time := fun _ => 2 * 2592000;
     datetime_now := fun _ => "2026-03-02 00:00:00";
     json_loads := fun _ => Ok (PDict (<["files" := PList resp]> ∅));
     int_of_str := fun _ => Raise ValueError;
     fromtimestamp := fun v =>
       match v with
       | PInt _ => Ok "1970-01-01 00:00:00"
       | _ => Raise TypeError
       end |}.

(** A record whose size is the JSON value [null]. *)
Definition sizeless_record : gmap string pyval :=
  <["id" := PStr "F4"]> (<["name" := PStr "d.gif"]>
    (<["timestamp" := PStr "1970-01-01 00:00:00"]>
      (<["mimetype" := PStr "image/gif"]> (<["size" := PNone]> ∅)))).

(** A listing whose only file, an image, has the JSON value [null] as
    size; [sizeless_record] is the record built for it. *)
Definition sizeless_listing : list pyval :=
  [PDict (<["id" := PStr "F4"]> (<["name" := PStr "d.gif"]>
           (<["timestamp" := PInt 0]> (<["mimetype" := PStr "image/gif"]>
             (<["size" := PNone]> ∅)))))].

(** ** Running the monad *)

Ltac run :=
  unfold mbind, mret, M_bind, M_ret, result_bind, result_ret, lift, raise,
    print, get_text, sleep, current_timestamp, calculate_days in *;
  simpl in *.

Lemma added_app (tr l : trace) : added tr (tr ++ l) = l.
Proof. unfold added. apply drop_app_length. Qed.

Lemma added_app2 (tr l1 l2 : trace) : added tr ((tr ++ l1) ++ l2) = l1 ++ l2.
Proof. rewrite <- app_assoc. apply added_app. Qed.

(** ** Substrings *)

Lemma append_nil (t : string) : ""%string +:+ t = t.
Proof. reflexivity. Qed.

Lemma append_cons (a : ascii) (s t : string) :
  String a s +:+ t = String a (s +:+ t).
Proof. reflexivity. Qed.

Lemma prefix_occurs (n h : string) :
  String.prefix n h = true <-> exists post, h = n +:+ post.
Proof.
  revert h. induction n as [|a n IH]; intros h.
  - split; [intros _; exists h | intros _; destruct h]; reflexivity.
  - setoid_rewrite append_cons. destruct h as [|b h]; simpl.
    + split; [discriminate | intros [post H]; discriminate].
    + destruct (Ascii.ascii_dec a b) as [->|Hab].
      * rewrite IH. split; intros [post H]; exists post; congruence.
      * split; [discriminate | intros [post H]; congruence].
Qed.

Lemma str_contains_nil (n : string) :
  str_contains n "" = String.prefix n "".
Proof. unfold str_contains. apply orb_false_r. Qed.

Lemma str_contains_cons (n : string) (a : ascii) (h : string) :
  str_contains n (String a h) =
  String.prefix n (String a h) || str_contains n h.
Proof. reflexivity. Qed.

Lemma str_contains_occurs (n h : string) :
  str_contains n h = true <-> occurs_in n h.
Proof.
  unfold occurs_in. induction h as [|a h IH].
  - rewrite str_contains_nil, prefix_occurs. split.
    + intros [post H]. exists ""%string, post. exact H.
    + intros [pre [post H]]. destruct pre as [|b pre].
      * rewrite append_nil in H. eauto.
      * rewrite append_cons in H. discriminate.
  - rewrite str_contains_cons, orb_true_iff, IH, prefix_occurs. split.
    + intros [[post H] | [pre [post H]]].
      * exists ""%string, post. exact H.
      * exists (String a pre), post. rewrite append_cons. congruence.
    + intros [pre [post H]]. destruct pre as [|b pre].
      * left. rewrite append_nil in H. eauto.
      * right. rewrite append_cons in H. exists pre, post. congruence.
Qed.

(** ** Facts about the sample data *)

Lemma sample_listed : Forall (listed_file listing_world) sample_listing.
Proof.
  repeat constructor; unfold listed_file, sample_file;
    eexists _, _, _, _, _, _, _; repeat split; reflexivity.
Qed.

Lemma sample_answers : answers sample_world.
Proof.
  intros tr uri params. simpl. unfold sample_get.
  destruct (params !! "file") as [[| | |id| |]|];
    try (exists "deleted", (PDict (<["ok" := PBool true]> ∅)), (PBool true);
         repeat split; discriminate).
  - destruct (String.eqb id "F1").
    + exists "not_found",
        (PDict (<["ok" := PBool false]> (<["error" := PStr "not_found"]> ∅))),
        (PBool false).
      repeat split. intros _. exists (PStr "not_found"). reflexivity.
    + exists "deleted", (PDict (<["ok" := PBool true]> ∅)), (PBool true).
      repeat split. discriminate.
  - exists "listing", (PDict sample_body), (PBool true).
    repeat split. discriminate.
Qed.

Lemma sample_well_formed : Forall (well_formed sample_world) sample_records.
Proof.
  repeat constructor; try (eexists; reflexivity);
    eexists _, _; split; reflexivity.
Qed.

Lemma sample_sizes (w : world) : Forall2 (size_of w) sample_records [100; 7].
Proof. repeat constructor; eexists; split; reflexivity. Qed.

(** ** The listing request *)

Lemma list_params_run (w : world) (token : string) (days count : Z)
    (tr : trace) :
  list_params w token days count tr =
  (Ok (if days =? 0
       then <["token" := PStr token]> (<["count" := PInt count]> ∅)
       else <["token" := PStr token]> (<["count" := PInt count]>
              (<["ts_to" := PInt (time_time w tr - days * 86400)]> ∅))),
   tr).
Proof.
  unfold list_params. destruct (days =? 0); run; [reflexivity|].
  replace (days * 24 * 60 * 60) with (days * 86400) by lia. reflexivity.
Qed.

Lemma list_files_run (w : world) (token : string) (days count : Z) (tr : trace)
    (params : gmap string pyval) :
  let tr1 := tr ++ [banner w days tr] in
  fst (list_params w token days count tr1) = Ok params ->
  list_files w token days count tr =
  (text ← requests_get w tr1 files_list_uri params;
   v ← json_loads w text;
   resp ← getitem v "files";
   items ← py_iter resp;
   collect w items [],
   tr ++ [banner w days tr; EGet files_list_uri params]).
Proof.
  intros tr1 Hp. rewrite list_params_run in Hp. simpl in Hp.
  unfold list_files. run. fold (banner w days tr). fold tr1.
  rewrite list_params_run. injection Hp as ->.
  replace (tr ++ [banner w days tr; EGet files_list_uri params])
    with (tr1 ++ [EGet files_list_uri params])
    by (unfold tr1; rewrite <- app_assoc; reflexivity).
  destruct (requests_get w tr1 files_list_uri params) as [text|e];
    [|reflexivity].
  destruct (json_loads w text) as [v|e]; [|reflexivity].
  destruct (getitem v "files") as [resp|e]; [|reflexivity].
  destruct (py_iter resp) as [items|e]; reflexivity.
Qed.

(** Whatever the remote answers, [list_files] prints its progress line and
    sends one request, to the listing endpoint. *)
Lemma list_files_events (w : world) (token : string) (days count : Z)
    (tr : trace) :
  let now := time_time w (tr ++ [banner w days tr]) in
  added tr (snd (list_files w token days count tr)) =
  [banner w days tr;
   EGet files_list_uri
     (if days =? 0
      then <["token" := PStr token]> (<["count" := PInt count]> ∅)
      else <["token" := PStr token]> (<["count" := PInt count]>
             (<["ts_to" := PInt (now - days * 86400)]> ∅)))].
Proof.
  intros now. erewrite list_files_run.
  - simpl. rewrite added_app. reflexivity.
  - rewrite list_params_run. reflexivity.
Qed.

(** C4: for a positive number of days [N] the listing request carries the
    upper bound [ts_to], equal to the current time minus [N * 86400]
    seconds; for [days = 0] the request carries the token and the count
    only.  In both cases it is the only request [list_files] sends. *)
Theorem listing_cutoff_parameter (w : world) (token : string) (N count : Z)
    (tr : trace) :
  0 < N ->
  let now := time_time w (tr ++ [banner w N tr]) in
  added tr (snd (list_files w token N count tr)) =
    [banner w N tr;
     EGet files_list_uri
       (<["token" := PStr token]> (<["count" := PInt count]>
          (<["ts_to" := PInt (now - N * 86400)]> ∅)))]
  /\
  added tr (snd (list_files w token 0 count tr)) =
    [banner w 0 tr;
     EGet files_list_uri
       (<["token" := PStr token]> (<["count" := PInt count]> ∅))].
Proof.
  intros HN now. split.
  - rewrite list_files_events. fold now.
    destruct (N =? 0) eqn:E; [lia | reflexivity].
  - rewrite list_files_events. reflexivity.
Qed.

Lemma listing_cutoff_parameter_witness :
  0 < 30 /\
  added [] (snd (list_files sample_world "xoxp" 30 1000 [])) =
    [banner sample_world 30 [];
     EGet files_list_uri
       (<["token" := PStr "xoxp"]> (<["count" := PInt 1000]>
          (<["ts_to" := PInt 2592000]> ∅)))]
  /\
  added [] (snd (list_files sample_world "xoxp" 0 1000 [])) =
    [banner sample_world 0 [];
     EGet files_list_uri
       (<["token" := PStr "xoxp"]> (<["count" := PInt 1000]> ∅))].
Proof.
  split; [lia|].
  apply (listing_cutoff_parameter sample_world "xoxp" 30 1000 []). lia.
Defined.

(** C9: a negative number of days does not switch the age filter off: the
    request still carries [ts_to], equal to the current time minus
    [days * 86400], which lies in the future.  The parameter is left out
    for [days = 0] and for no other value. *)
Theorem negative_days_cutoff (w : world) (token : string) (days count : Z)
    (tr : trace) :
  days < 0 ->
  let now := time_time w (tr ++ [banner w days tr]) in
  (exists ts_to : Z,
     added tr (snd (list_files w token days count tr)) =
       [banner w days tr;
        EGet files_list_uri
          (<["token" := PStr token]> (<["count" := PInt count]>
             (<["ts_to" := PInt ts_to]> ∅)))]
     /\ ts_to = now - days * 86400 /\ now < ts_to)
  /\
  (forall d : Z,
     exists params : gmap string pyval,
       added tr (snd (list_files w token d count tr)) =
         [banner w d tr; EGet files_list_uri params]
       /\ (params !! "ts_to" = None <-> d = 0)).
Proof.
  intros Hd now. split.
  - exists (now - days * 86400). split; [|lia].
    rewrite list_files_events. fold now.
    destruct (days =? 0) eqn:E; [lia | reflexivity].
  - intros d. eexists. split; [apply list_files_events|].
    destruct (d =? 0) eqn:E.
    + split; [lia | reflexivity].
    + split; [|lia]. intros H. exfalso. revert H.
      rewrite lookup_insert_ne by discriminate.
      rewrite lookup_insert_ne by discriminate.
      rewrite lookup_insert_eq. discriminate.
Qed.

Lemma negative_days_cutoff_witness :
  -1 < 0 /\
  exists ts_to : Z,
    added [] (snd (list_files sample_world "xoxp" (-1) 1000 [])) =
      [banner sample_world (-1) [];
       EGet files_list_uri
         (<["token" := PStr "xoxp"]> (<["count" := PInt 1000]>
            (<["ts_to" := PInt ts_to]> ∅)))]
    /\ ts_to = 2 * 2592000 + 86400 /\ 2 * 2592000 < ts_to.
Proof.
  split; [lia|].
  apply (negative_days_cutoff sample_world "xoxp" (-1) 1000 []). lia.
Defined.

(** ** The MIME filter *)

Lemma is_media_str (d : gmap string pyval) (m : string) :
  d !! "mimetype" = Some (PStr m) ->
  is_media (PDict d) =
  Ok (str_contains "audio" m || (str_contains "image" m ||
      (str_contains "video" m || false))).
Proof.
  intros H. unfold is_media, mimetypes. simpl. unfold dict_getitem.
  rewrite H. reflexivity.
Qed.

Lemma is_media_iff (d : gmap string pyval) (m : string) :
  d !! "mimetype" = Some (PStr m) ->
  is_media (PDict d) = Ok true <-> media_mimetype m.
Proof.
  intros H. rewrite (is_media_str d m H). unfold media_mimetype.
  rewrite <- !str_contains_occurs.
  destruct (str_contains "audio" m), (str_contains "image" m),
    (str_contains "video" m); simpl; split; intros; try tauto;
    try discriminate; try (intuition discriminate).
Qed.

Lemma is_media_total (w : world) (f : pyval) :
  listed_file w f -> exists b, is_media f = Ok b.
Proof.
  intros (d & id & name & ts & t & m & sz & -> & _ & _ & _ & _ & Hm & _).
  rewrite (is_media_str d m Hm). eauto.
Qed.

Lemma file_record_listed (w : world) (f : pyval) :
  listed_file w f -> exists r, file_record w f = Ok r.
Proof.
  intros (d & id & name & ts & t & m & sz & -> & Hid & Hn & Hts & Ht & Hm
          & Hsz).
  unfold file_record. simpl. unfold dict_getitem.
  rewrite Hid, Hn, Hts. simpl. rewrite Ht. simpl. rewrite Hm, Hsz. simpl.
  eauto.
Qed.

(** The record built for a file keeps the file's MIME type. *)
Lemma file_record_mimetype (w : world) (f : pyval) (r : gmap string pyval) :
  file_record w f = Ok r -> exists v, getitem f "mimetype" = Ok v /\
                                      r !! "mimetype" = Some v.
Proof.
  unfold file_record. run.
  destruct (getitem f "id"); [|discriminate].
  destruct (getitem f "name"); [|discriminate].
  destruct (getitem f "timestamp") as [ts|]; [|discriminate].
  destruct (fromtimestamp w ts); [|discriminate].
  destruct (getitem f "mimetype") as [v|]; [|discriminate].
  destruct (getitem f "size"); [|discriminate].
  intros [= <-]. exists v. split; [reflexivity|].
  rewrite !lookup_insert_ne by discriminate. apply lookup_insert_eq.
Qed.

Lemma collect_listed (w : world) (resp : list pyval) :
  Forall (listed_file w) resp ->
  forall acc, exists recs,
    collect w resp acc = Ok (acc ++ recs) /\
    (forall f r, f ∈ resp -> file_record w f = Ok r ->
                 is_media f = Ok true -> r ∈ recs) /\
    (forall r, r ∈ recs ->
               exists f, f ∈ resp /\ file_record w f = Ok r /\
                         is_media f = Ok true).
Proof.
  induction 1 as [|f rest Hf Hrest IH]; intros acc.
  - exists []. rewrite app_nil_r. split; [reflexivity|].
    split; [intros f r Hin; inversion Hin | intros r Hin; inversion Hin].
  - destruct (is_media_total w f Hf) as [b Hb].
    destruct (file_record_listed w f Hf) as [r0 Hr0].
    simpl. rewrite Hb. simpl. destruct b.
    + rewrite Hr0. simpl.
      destruct (IH (acc ++ [r0])) as (recs & Hc & Hin & Hout).
      exists (r0 :: recs). rewrite Hc, <- app_assoc. split; [reflexivity|].
      split.
      * intros g r Hg Hr Hm. apply elem_of_cons in Hg as [->|Hg].
        -- rewrite Hr0 in Hr. injection Hr as <-. left.
        -- right. eapply Hin; eassumption.
      * intros r Hr. apply elem_of_cons in Hr as [->|Hr].
        -- exists f. split; [left | auto].
        -- destruct (Hout r Hr) as (g & Hg & Hgr & Hgm).
           exists g. split; [right; exact Hg | auto].
    + destruct (IH acc) as (recs & Hc & Hin & Hout).
      exists recs. split; [exact Hc|]. split.
      * intros g r Hg Hr Hm. apply elem_of_cons in Hg as [->|Hg].
        -- congruence.
        -- eapply Hin; eassumption.
      * intros r Hr. destruct (Hout r Hr) as (g & Hg & Hgr & Hgm).
        exists g. split; [right; exact Hg | auto].
Qed.

(** C3: when the remote answers the listing request with file objects [resp],
    [list_files] returns a list in which the record of a file object of
    [resp] occurs if and only if the object's MIME type contains "audio",
    "image" or "video" as a substring; the list holds nothing else. *)
Theorem listing_keeps_media_only (w : world) (token : string) (days count : Z)
    (tr : trace) (text : string) (body : gmap string pyval)
    (resp : list pyval) :
  (forall tr' params, requests_get w tr' files_list_uri params = Ok text) ->
  json_loads w text = Ok (PDict body) ->
  body !! "files" = Some (PList resp) ->
  Forall (listed_file w) resp ->
  exists files,
    fst (list_files w token days count tr) = Ok files /\
    (forall f m, f ∈ resp -> getitem f "mimetype" = Ok (PStr m) ->
       ((exists r, file_record w f = Ok r /\ r ∈ files) <->
        media_mimetype m)) /\
    (forall r, r ∈ files -> exists f, f ∈ resp /\ file_record w f = Ok r).
Proof.
  intros Hget Hjson Hfiles Hresp.
  destruct (collect_listed w resp Hresp []) as (files & Hc & Hin & Hout).
  exists files. split; [|split].
  - erewrite list_files_run by (rewrite list_params_run; reflexivity).
    simpl. rewrite Hget. simpl. rewrite Hjson. simpl.
    unfold dict_getitem. rewrite Hfiles. simpl. exact Hc.
  - intros f m Hf Hm.
    assert (Hd : exists d, f = PDict d /\ d !! "mimetype" = Some (PStr m)).
    { destruct f; try discriminate. simpl in Hm. unfold dict_getitem in Hm.
      destruct (d !! "mimetype") eqn:E; [|discriminate].
      injection Hm as ->. eauto. }
    destruct Hd as (d & -> & Hd). split.
    + intros (r & Hr & Hrin).
      destruct (Hout r Hrin) as (g & Hg & Hgr & Hgm).
      destruct (file_record_mimetype w _ _ Hr) as (v & Hv & Hrv).
      destruct (file_record_mimetype w _ _ Hgr) as (v' & Hv' & Hrv').
      rewrite Hm in Hv. injection Hv as <-.
      rewrite Hrv in Hrv'. injection Hrv' as <-.
      destruct g; try discriminate. simpl in Hv'. unfold dict_getitem in Hv'.
      destruct (d0 !! "mimetype") eqn:E; [|discriminate].
      injection Hv' as ->. apply (is_media_iff d0 m E). exact Hgm.
    + intros Hmedia.
      destruct (file_record_listed w (PDict d)) as [r Hr].
      { rewrite Forall_forall in Hresp. apply Hresp. exact Hf. }
      exists r. split; [exact Hr|]. eapply Hin; [exact Hf | exact Hr |].
      apply (is_media_iff d m Hd). exact Hmedia.
  - intros r Hr. destruct (Hout r Hr) as (g & Hg & Hgr & _). eauto.
Qed.

Lemma listing_keeps_media_only_witness :
  exists files,
    fst (list_files listing_world "xoxp" 30 1000 []) = Ok files /\
    (forall f m, f ∈ sample_listing -> getitem f "mimetype" = Ok (PStr m) ->
       ((exists r, file_record listing_world f = Ok r /\ r ∈ files) <->
        media_mimetype m)) /\
    (forall r, r ∈ files ->
       exists f, f ∈ sample_listing /\ file_record listing_world f = Ok r).
Proof.
  apply (listing_keeps_media_only listing_world "xoxp" 30 1000 [] "listing"
           sample_body sample_listing).
  - intros tr' params. reflexivity.
  - reflexivity.
  - reflexivity.
  - exact sample_listed.
Defined.

(** ** The pieces of [delete_files] *)

Lemma delete_finally_bound (w : world) (size n c : Z) (tr : trace) :
  delete_finally w
    {| count := Some c; size_to_delete := Some size; num_files := Some n |} tr
  = (Ok tt, tr ++ [summary w size n c tr]).
Proof. reflexivity. Qed.

Lemma delete_finally_unbound (w : world) (c : option Z) (n : option Z)
    (tr : trace) :
  delete_finally w {| count := c; size_to_delete := None; num_files := n |} tr
  = (Raise (UnboundLocalError "size_to_delete"), tr).
Proof. reflexivity. Qed.

Lemma report_run (w : world) (files : list (gmap string pyval)) (n size : Z)
    (tr : trace) :
  report w files n size tr =
  match mapM listing_row files with
  | Ok rows => (Ok tt, tr ++ [found w n size tr; EPrint (Listing rows)])
  | Raise e => (Raise e, tr ++ [found w n size tr])
  end.
Proof.
  unfold report. run. fold (found w n size tr).
  destruct (mapM listing_row files); [|reflexivity].
  rewrite <- app_assoc. reflexivity.
Qed.

Lemma mapM_cons {A B : Type} (f : A -> result B) (x : A) (l : list A) :
  mapM f (x :: l) = y ← f x; k ← mapM f l; mret (y :: k).
Proof. reflexivity. Qed.

Lemma sizes_Forall2 (w : world) (files : list (gmap string pyval))
    (ss : list Z) :
  Forall2 (size_of w) files ss -> sizes w files = Ok ss.
Proof.
  unfold sizes. induction 1 as [|f z files ss (v & Hv & Hz) _ IH].
  - reflexivity.
  - rewrite mapM_cons, IH. unfold dict_getitem. rewrite Hv. simpl.
    rewrite Hz. reflexivity.
Qed.

Lemma well_formed_sizes (w : world) (files : list (gmap string pyval)) :
  Forall (well_formed w) files -> exists ss, Forall2 (size_of w) files ss.
Proof.
  induction 1 as [|f files (_ & _ & _ & _ & v & z & Hv & Hz) _ [ss IH]].
  - exists []. constructor.
  - exists (z :: ss). constructor; [exists v; auto | exact IH].
Qed.

Lemma well_formed_rows (w : world) (files : list (gmap string pyval)) :
  Forall (well_formed w) files -> exists rows, mapM listing_row files = Ok rows.
Proof.
  induction 1 as [|f files Hf _ [rows IH]].
  - exists []. reflexivity.
  - destruct Hf as ([id Hid] & [name Hn] & [ts Hts] & [m Hm] & v & z & Hv & _).
    rewrite mapM_cons, IH. unfold listing_row, dict_getitem.
    rewrite Hid, Hn, Hts, Hm, Hv. simpl. eauto.
Qed.

(** One round of the loop only adds events, and its requests go to [uri]. *)
Lemma delete_item_events (w : world) (token uri : string)
    (f : gmap string pyval) (tr : trace) :
  exists evs, snd (delete_item w token uri f tr) = tr ++ evs /\
              Forall (sent_to uri) evs.
Proof.
  unfold delete_item, dict_getitem. run.
  repeat match goal with
         | |- context [match ?x with _ => _ end] => destruct x eqn:?
         | |- context [if ?x then _ else _] => destruct x eqn:?
         end; simpl; rewrite <- ?app_assoc; simpl;
    (eexists; split; [reflexivity | repeat constructor]) ||
    (exists []; split; [symmetry; apply app_nil_r | constructor]).
Qed.

Lemma delete_loop_events (w : world) (token uri : string)
    (files : list (gmap string pyval)) (c : Z) (tr : trace) :
  exists evs, snd (delete_loop w token uri files c tr) = tr ++ evs /\
              Forall (sent_to uri) evs.
Proof.
  revert c tr. induction files as [|f rest IH]; intros c tr; simpl.
  - exists []. split; [symmetry; apply app_nil_r | constructor].
  - destruct (delete_item_events w token uri f tr) as (evs & He & Hs).
    destruct (delete_item w token uri f tr) as [[u|e] tr1]; simpl in He;
      subst tr1.
    + destruct (IH (c + 1) (tr ++ evs)) as (evs' & He' & Hs').
      exists (evs ++ evs'). rewrite He', app_assoc. split; [reflexivity|].
      apply Forall_app; auto.
    + exists evs. auto.
Qed.

Lemma delete_loop_app (w : world) (token uri : string)
    (pre post : list (gmap string pyval)) (c : Z) (tr : trace) :
  delete_loop w token uri (pre ++ post) c tr =
  match delete_loop w token uri pre c tr with
  | (Ok _, c', tr') => delete_loop w token uri post c' tr'
  | other => other
  end.
Proof.
  revert c tr. induction pre as [|f pre IH]; intros c tr; simpl.
  - reflexivity.
  - destruct (delete_item w token uri f tr) as [[u|e] tr1];
      [apply IH | reflexivity].
Qed.

(** When the loop ends normally the counter has grown by the number of
    records. *)
Lemma delete_loop_count (w : world) (token uri : string)
    (files : list (gmap string pyval)) (c c' : Z) (tr tr' : trace) (u : unit) :
  delete_loop w token uri files c tr = (Ok u, c', tr') ->
  c' = c + Z.of_nat (length files).
Proof.
  revert c tr. induction files as [|f rest IH]; intros c tr; simpl.
  - intros [= <- <-]. lia.
  - destruct (delete_item w token uri f tr) as [[v|e] tr1]; [|discriminate].
    intros H. apply IH in H. lia.
Qed.

(** [delete_files] once the sizes are summed: the report, the loop unless
    [view_only] is set, and the final line, which leaves the outcome as the
    [try] block produced it. *)
Lemma delete_files_run (w : world) (token : string)
    (files : list (gmap string pyval)) (view_only : bool) (tr : trace)
    (ss : list Z) :
  sizes w files = Ok ss ->
  let size := py_sum ss in
  let n := Z.of_nat (length files) in
  delete_files w token files view_only tr =
  match report w files n size tr with
  | (Raise e, tr1) => (Raise e, tr1 ++ [summary w size n 0 tr1])
  | (Ok _, tr1) =>
      if view_only then (Ok tt, tr1 ++ [summary w size n 0 tr1])
      else
        let '(r, c, tr2) := delete_loop w token files_list_uri files 0 tr1 in
        (r, tr2 ++ [summary w size n c tr2])
  end.
Proof.
  intros Hs size n. unfold delete_files, delete_try. rewrite Hs.
  fold size. fold n.
  destruct (report w files n size tr) as [[u|e] tr1]; [|reflexivity].
  destruct view_only; [reflexivity|].
  destruct (delete_loop w token files_list_uri files 0 tr1) as [[r c] tr2].
  reflexivity.
Qed.

(** When a size cannot be read the names of the [finally] block are still
    unbound, and nothing is printed. *)
Lemma delete_files_no_sizes (w : world) (token : string)
    (files : list (gmap string pyval)) (view_only : bool) (tr : trace)
    (e : exn) :
  sizes w files = Raise e ->
  delete_files w token files view_only tr =
  (Raise (UnboundLocalError "size_to_delete"), tr).
Proof.
  intros Hs. unfold delete_files, delete_try. rewrite Hs. reflexivity.
Qed.

Lemma added_same (tr : trace) : added tr tr = [].
Proof. unfold added. apply drop_all. Qed.

Lemma delete_files_events (w : world) (token : string)
    (files : list (gmap string pyval)) (view_only : bool) (tr : trace) :
  Forall (sent_to files_list_uri)
         (added tr (snd (delete_files w token files view_only tr))).
Proof.
  destruct (sizes w files) as [ss|e] eqn:Hs.
  - rewrite (delete_files_run w token files view_only tr ss Hs).
    rewrite report_run.
    destruct (mapM listing_row files) as [rows|e].
    + destruct view_only.
      * simpl. rewrite added_app2. repeat constructor.
      * match goal with
        | |- context [delete_loop w token files_list_uri files 0 ?t] =>
            destruct (delete_loop_events w token files_list_uri files 0 t)
              as (evs & He & Hs');
            destruct (delete_loop w token files_list_uri files 0 t)
              as [[r c] tr2]
        end.
        simpl in He. subst tr2. simpl. rewrite <- !app_assoc, added_app.
        repeat (apply Forall_app; split); auto; repeat constructor.
    + simpl. rewrite added_app2. repeat constructor.
  - rewrite (delete_files_no_sizes w token files view_only tr e Hs).
    simpl. rewrite added_same. constructor.
Qed.

(** In a dry run nothing is requested and nothing is waited for. *)
Lemma dry_run_silent (w : world) (token : string)
    (files : list (gmap string pyval)) (tr : trace) :
  remote_io (added tr (snd (delete_files w token files true tr))) = [].
Proof.
  destruct (sizes w files) as [ss|e] eqn:Hs.
  - rewrite (delete_files_run w token files true tr ss Hs), report_run.
    destruct (mapM listing_row files) as [rows|e];
      simpl; rewrite added_app2; reflexivity.
  - rewrite (delete_files_no_sizes w token files true tr e Hs).
    simpl. rewrite added_same. reflexivity.
Qed.

(** C2: every request of [delete_files] goes to the listing endpoint
    [files.list]; the deletion endpoint [files.delete], which the source
    names in a comment only, receives none. *)
Theorem delete_requests_go_to_listing_endpoint (w : world) (token : string)
    (files : list (gmap string pyval)) (view_only : bool) (tr : trace) :
  Forall (sent_to files_list_uri)
         (added tr (snd (delete_files w token files view_only tr))) /\
  files_list_uri = "https://slack.com/api/files.list" /\
  (forall params,
     EGet files_delete_uri params ∉
       added tr (snd (delete_files w token files view_only tr))).
Proof.
  split; [apply delete_files_events|]. split; [reflexivity|].
  intros params Hin.
  pose proof (delete_files_events w token files view_only tr) as H.
  rewrite Forall_forall in H. specialize (H _ Hin). discriminate H.
Qed.

(** ** Rounds of the loop *)

(** A round whose request is answered and whose sleep is not interrupted
    sends one request, sleeps, and prints one line. *)
Lemma delete_item_answered (w : world) (token uri : string)
    (f : gmap string pyval) (id : pyval) (tr : trace) :
  answers w -> uninterrupted w -> well_formed w f -> f !! "id" = Some id ->
  exists line,
    delete_item w token uri f tr =
    (Ok tt,
     tr ++ [EGet uri (<["token" := PStr token]> (<["file" := id]> ∅));
            ESleep wait_seconds; EPrint line]).
Proof.
  intros Hans Hsl (_ & [name Hn] & [ts Hts] & _) Hid.
  destruct (Hans tr uri (<["token" := PStr token]> (<["file" := id]> ∅)))
    as (text & v & ok & Hg & Hj & Hok & Herr).
  unfold delete_item, dict_getitem. run.
  rewrite Hid, Hg, Hj, Hsl, Hok, Hn, Hts.
  destruct (truthy ok).
  - eexists. rewrite <- !app_assoc. reflexivity.
  - destruct Herr as [reason Hr]; [reflexivity|]. rewrite Hr.
    eexists. rewrite <- !app_assoc. reflexivity.
Qed.

(** A round whose request is refused (lines 119-125, [else] branch). *)
Lemma delete_item_refused (w : world) (token : string)
    (f : gmap string pyval) (tr : trace)
    (id name ok reason dresponse : pyval) (text : string) :
  let tr1 := tr ++ [item_request token id] in
  let tr2 := tr ++ [item_request token id; ESleep wait_seconds] in
  f !! "id" = Some id -> f !! "name" = Some name ->
  requests_get w tr files_list_uri
    (<["token" := PStr token]> (<["file" := id]> ∅)) = Ok text ->
  json_loads w text = Ok dresponse ->
  time_sleep w tr1 wait_seconds = Ok tt ->
  getitem dresponse "ok" = Ok ok -> truthy ok = false ->
  getitem dresponse "error" = Ok reason ->
  delete_item w token files_list_uri f tr =
  (Ok tt, tr ++ [item_request token id; ESleep wait_seconds;
                 unable w id name reason tr2]).
Proof.
  intros tr1 tr2 Hid Hn Hg Hj Hsl Hok Hf Hr.
  unfold delete_item, dict_getitem. run.
  rewrite Hid, Hg, Hj. fold (item_request token id). fold tr1.
  rewrite Hsl, Hok, Hf, Hn, Hr. unfold tr1, unable, tr2.
  rewrite <- !app_assoc. reflexivity.
Qed.

(** A round whose request, or the parsing of its answer, raises [e]. *)
Lemma delete_item_raises (w : world) (token : string)
    (f : gmap string pyval) (tr : trace) (id : pyval) (e : exn) :
  let params := <["token" := PStr token]> (<["file" := id]> ∅) in
  f !! "id" = Some id ->
  requests_get w tr files_list_uri params = Raise e \/
  (exists text, requests_get w tr files_list_uri params = Ok text /\
                json_loads w text = Raise e) ->
  delete_item w token files_list_uri f tr =
  (Raise e, tr ++ [item_request token id]).
Proof.
  intros params Hid Hr. unfold delete_item, dict_getitem. run.
  rewrite Hid. fold params.
  destruct Hr as [Hr | (text & Hg & Hj)].
  - rewrite Hr. reflexivity.
  - rewrite Hg, Hj. reflexivity.
Qed.

Lemma delete_loop_answered (w : world) (token : string)
    (files : list (gmap string pyval)) (ids : list pyval) :
  answers w -> uninterrupted w -> Forall (well_formed w) files ->
  Forall2 (fun f id => f !! "id" = Some id) files ids ->
  forall c tr, exists evs,
    delete_loop w token files_list_uri files c tr =
      (Ok tt, c + Z.of_nat (length files), tr ++ evs) /\
    remote_io evs =
      flat_map (fun id => [item_request token id; ESleep wait_seconds]) ids.
Proof.
  intros Hans Hsl Hwf Hids. revert Hwf.
  induction Hids as [|f id files ids Hid _ IH]; intros Hwf c tr.
  - exists []. rewrite app_nil_r. simpl.
    split; [f_equal; f_equal; lia | reflexivity].
  - apply Forall_cons in Hwf as [Hf Hwf].
    destruct (delete_item_answered w token files_list_uri f id tr
                Hans Hsl Hf Hid) as [line Hitem].
    simpl. rewrite Hitem.
    destruct (IH Hwf (c + 1)
                (tr ++ [EGet files_list_uri
                          (<["token" := PStr token]> (<["file" := id]> ∅));
                        ESleep wait_seconds; EPrint line]))
      as (evs & Hloop & Hio).
    eexists. rewrite Hloop, <- app_assoc. split.
    + f_equal. f_equal. lia.
    + simpl. rewrite Hio. reflexivity.
Qed.

Lemma remote_io_app (l1 l2 : trace) :
  remote_io (l1 ++ l2) = remote_io l1 ++ remote_io l2.
Proof. apply List.filter_app. Qed.

(** C1: a dry run sends no request (and waits for nothing), whatever the
    records.  A normal run in which every request is answered sends, for
    each record in input order, one request carrying the record's id,
    each followed by a sleep of 2 seconds, whether the answer reports
    success or failure; it sends and waits for nothing else. *)
Theorem one_request_per_record (w : world) (token : string)
    (files : list (gmap string pyval)) (ids : list pyval) (tr : trace) :
  answers w -> uninterrupted w -> Forall (well_formed w) files ->
  Forall2 (fun f id => f !! "id" = Some id) files ids ->
  (forall files' tr',
     remote_io (added tr' (snd (delete_files w token files' true tr'))) = [])
  /\ fst (delete_files w token files false tr) = Ok tt
  /\ remote_io (added tr (snd (delete_files w token files false tr))) =
     flat_map (fun id => [item_request token id; ESleep 2]) ids.
Proof.
  intros Hans Hsl Hwf Hids.
  split; [intros files' tr'; apply dry_run_silent|].
  destruct (well_formed_sizes w files Hwf) as [ss Hss].
  destruct (well_formed_rows w files Hwf) as [rows Hrows].
  rewrite (delete_files_run w token files false tr ss
             (sizes_Forall2 _ _ _ Hss)).
  rewrite report_run, Hrows.
  match goal with
  | |- context [delete_loop w token files_list_uri files 0 ?t] =>
      destruct (delete_loop_answered w token files ids Hans Hsl Hwf Hids 0 t)
        as (evs & Hloop & Hio); rewrite Hloop
  end.
  simpl. split; [reflexivity|].
  rewrite <- !app_assoc, added_app. simpl.
  rewrite remote_io_app, Hio. simpl. apply app_nil_r.
Qed.

Lemma one_request_per_record_witness :
  (forall files' tr',
     remote_io
       (added tr' (snd (delete_files sample_world "xoxp" files' true tr')))
     = [])
  /\ fst (delete_files sample_world "xoxp" sample_records false []) = Ok tt
  /\ remote_io
       (added []
          (snd (delete_files sample_world "xoxp" sample_records false [])))
     =
     [item_request "xoxp" (PStr "F1"); ESleep 2;
      item_request "xoxp" (PStr "F3"); ESleep 2].
Proof.
  apply (one_request_per_record sample_world "xoxp" sample_records
           [PStr "F1"; PStr "F3"] []).
  - exact sample_answers.
  - intros tr secs. reflexivity.
  - exact sample_well_formed.
  - repeat constructor.
Defined.

Lemma fold_left_add (l : list Z) (a : Z) :
  fold_left Z.add l a = a + foldr Z.add 0 l.
Proof.
  revert a. induction l as [|x l IH]; intros a; simpl; [lia|].
  rewrite IH. lia.
Qed.

Lemma py_sum_foldr (l : list Z) : py_sum l = foldr Z.add 0 l.
Proof. unfold py_sum. rewrite fold_left_add. lia. Qed.

(** C5: once the sizes [ss] of the records are read, the first line
    [delete_files] prints and the last one both carry the number of input
    records and the sum of their sizes, in a dry run and in a normal one,
    and whatever the remote answers to the requests in between. *)
Theorem totals_match_input (w : world) (token : string)
    (files : list (gmap string pyval)) (ss : list Z) (view_only : bool)
    (tr : trace) :
  Forall2 (size_of w) files ss ->
  let n := Z.of_nat (length files) in
  let size := foldr Z.add 0 ss in
  exists middle c,
    added tr (snd (delete_files w token files view_only tr)) =
    found w n size tr :: middle ++
      [summary w size n c (tr ++ found w n size tr :: middle)].
Proof.
  intros Hss n size.
  rewrite (delete_files_run w token files view_only tr ss
             (sizes_Forall2 _ _ _ Hss)).
  rewrite py_sum_foldr. fold n. fold size. rewrite report_run.
  destruct (mapM listing_row files) as [rows|e].
  - destruct view_only.
    + exists [EPrint (Listing rows)], 0. simpl.
      rewrite added_app2. reflexivity.
    + match goal with
      | |- context [delete_loop w token files_list_uri files 0 ?t] =>
          destruct (delete_loop_events w token files_list_uri files 0 t)
            as (evs & He & _);
          destruct (delete_loop w token files_list_uri files 0 t)
            as [[r c] tr2]
      end.
      simpl in He. subst tr2. exists (EPrint (Listing rows) :: evs), c.
      simpl. rewrite <- !app_assoc, added_app. reflexivity.
  - exists [], 0. simpl. rewrite added_app2. reflexivity.
Qed.

Lemma totals_match_input_witness :
  exists middle c,
    added [] (snd (delete_files failing_world "xoxp" sample_records false [])) =
    found failing_world 2 107 [] :: middle ++
      [summary failing_world 107 2 c
         ([] ++ found failing_world 2 107 [] :: middle)].
Proof.
  apply (totals_match_input failing_world "xoxp" sample_records [100; 7]
           false []).
  apply sample_sizes.
Defined.

(** C6: once the report is printed, [delete_files] ends as its loop ends:
    when the loop completes it returns, when the loop raises [e] it raises
    the same [e]; in both cases the last thing it does is print the final
    line with the totals and the counter the loop left. *)
Theorem summary_after_loop (w : world) (token : string)
    (files : list (gmap string pyval)) (ss : list Z) (rows : list (list pyval))
    (tr tr2 : trace) (r : result unit) (c : Z) :
  let n := Z.of_nat (length files) in
  let size := foldr Z.add 0 ss in
  let tr1 := tr ++ [found w n size tr; EPrint (Listing rows)] in
  Forall2 (size_of w) files ss ->
  mapM listing_row files = Ok rows ->
  delete_loop w token files_list_uri files 0 tr1 = (r, c, tr2) ->
  delete_files w token files false tr = (r, tr2 ++ [summary w size n c tr2]).
Proof.
  intros n size tr1 Hss Hrows Hloop.
  rewrite (delete_files_run w token files false tr ss
             (sizes_Forall2 _ _ _ Hss)).
  rewrite py_sum_foldr. fold n. fold size.
  rewrite report_run, Hrows. fold tr1. rewrite Hloop. reflexivity.
Qed.

Lemma summary_after_loop_witness :
  let tr1 := [found failing_world 2 107 []; EPrint (Listing sample_rows)] in
  let tr2 := tr1 ++ [item_request "xoxp" (PStr "F1"); ESleep 2;
                     unable failing_world (PStr "F1") (PStr "a.png")
                       (PStr "not_found") [];
                     item_request "xoxp" (PStr "F3")] in
  delete_files failing_world "xoxp" sample_records false [] =
  (Raise (OtherError "ConnectionError"),
   tr2 ++ [summary failing_world 107 2 2 tr2]).
Proof.
  intros tr1 tr2.
  apply (summary_after_loop failing_world "xoxp" sample_records [100; 7]
           sample_rows [] tr2 (Raise (OtherError "ConnectionError")) 2).
  - apply sample_sizes.
  - reflexivity.
  - vm_compute. reflexivity.
Defined.

(** Every round for a record with an id starts with the request for it. *)
Lemma delete_item_head (w : world) (token : string) (f : gmap string pyval)
    (id : pyval) (tr : trace) :
  f !! "id" = Some id ->
  exists r evs,
    delete_item w token files_list_uri f tr =
    (r, tr ++ item_request token id :: evs).
Proof.
  intros Hid. unfold delete_item, dict_getitem. run. rewrite Hid.
  fold (item_request token id).
  repeat match goal with
         | |- context [match ?x with _ => _ end] => destruct x eqn:?
         | |- context [if ?x then _ else _] => destruct x eqn:?
         end; simpl; rewrite <- ?app_assoc; simpl;
    eexists _, _; reflexivity.
Qed.

(** The loop only adds events, and its counter never goes down. *)
Lemma delete_loop_extends (w : world) (token uri : string)
    (files : list (gmap string pyval)) (c : Z) (tr : trace) :
  exists r c' evs,
    delete_loop w token uri files c tr = (r, c', tr ++ evs) /\ c <= c'.
Proof.
  revert c tr. induction files as [|f rest IH]; intros c tr; simpl.
  - exists (Ok tt), c, []. rewrite app_nil_r. split; [reflexivity | lia].
  - destruct (delete_item_events w token uri f tr) as (evs & He & _).
    destruct (delete_item w token uri f tr) as [[u|e] tr1]; simpl in He;
      subst tr1.
    + destruct (IH (c + 1) (tr ++ evs)) as (r & c' & evs' & -> & Hc).
      exists r, c', (evs ++ evs'). rewrite app_assoc.
      split; [reflexivity | lia].
    + exists (Raise e), (c + 1), evs. split; [reflexivity | lia].
Qed.

(** A loop over a non-empty list first asks for its first record, and
    counts it. *)
Lemma delete_loop_next (w : world) (token : string)
    (g : gmap string pyval) (rest : list (gmap string pyval)) (id : pyval)
    (c : Z) (tr : trace) :
  g !! "id" = Some id ->
  exists r c' evs,
    delete_loop w token files_list_uri (g :: rest) c tr =
      (r, c', tr ++ item_request token id :: evs) /\
    c + 1 <= c'.
Proof.
  intros Hid. simpl.
  destruct (delete_item_head w token g id tr Hid) as (r & evs & ->).
  destruct r as [u|e].
  - destruct (delete_loop_extends w token files_list_uri rest (c + 1)
                (tr ++ item_request token id :: evs))
      as (r' & c' & evs' & -> & Hc).
    exists r', c', (evs ++ evs'). rewrite <- app_assoc.
    split; [reflexivity | lia].
  - exists (Raise e), (c + 1), evs. split; [reflexivity | lia].
Qed.

(** C7: a record whose request is answered with a false [ok] gets one
    request and one sleep, a line that names the error the remote gave is
    printed, and the round ends normally with the counter one higher.  The
    loop then goes on: what it adds next, when a record follows, starts
    with the request for that record, so the refused record is not asked
    for again. *)
Theorem refused_record_is_counted_and_skipped (w : world) (token : string)
    (f : gmap string pyval) (rest : list (gmap string pyval)) (c : Z)
    (tr : trace) (id name ok reason dresponse : pyval) (text : string) :
  let tr1 := tr ++ [item_request token id] in
  let tr2 := tr ++ [item_request token id; ESleep 2] in
  let tr3 := tr ++ [item_request token id; ESleep 2;
                    unable w id name reason tr2] in
  f !! "id" = Some id -> f !! "name" = Some name ->
  requests_get w tr files_list_uri
    (<["token" := PStr token]> (<["file" := id]> ∅)) = Ok text ->
  json_loads w text = Ok dresponse ->
  time_sleep w tr1 2 = Ok tt ->
  getitem dresponse "ok" = Ok ok -> truthy ok = false ->
  getitem dresponse "error" = Ok reason ->
  delete_item w token files_list_uri f tr = (Ok tt, tr3) /\
  delete_loop w token files_list_uri [f] c tr = (Ok tt, c + 1, tr3) /\
  (exists r c' evs,
     delete_loop w token files_list_uri (f :: rest) c tr =
       (r, c', tr3 ++ evs) /\
     delete_loop w token files_list_uri rest (c + 1) tr3 =
       (r, c', tr3 ++ evs) /\
     c + 1 <= c') /\
  (forall g rest' id',
     rest = g :: rest' -> g !! "id" = Some id' ->
     exists r c' evs,
       delete_loop w token files_list_uri (f :: rest) c tr =
         (r, c', tr3 ++ item_request token id' :: evs) /\
       c + 2 <= c').
Proof.
  intros tr1 tr2 tr3 Hid Hn Hg Hj Hsl Hok Hf Hr.
  pose proof (delete_item_refused w token f tr id name ok reason dresponse
                text Hid Hn Hg Hj Hsl Hok Hf Hr) as Hitem.
  fold tr3 in Hitem.
  split; [exact Hitem|]. split; [simpl; rewrite Hitem; reflexivity|]. split.
  - destruct (delete_loop_extends w token files_list_uri rest (c + 1) tr3)
      as (r & c' & evs & Hloop & Hc).
    exists r, c', evs. simpl. rewrite Hitem. auto.
  - intros g rest' id' -> Hg'.
    destruct (delete_loop_next w token g rest' id' (c + 1) tr3 Hg')
      as (r & c' & evs & Hloop & Hc).
    exists r, c', evs. simpl delete_loop at 1. rewrite Hitem.
    split; [exact Hloop | lia].
Qed.

Lemma refused_record_is_counted_and_skipped_witness :
  let tr3 := [item_request "xoxp" (PStr "F1"); ESleep 2;
              unable sample_world (PStr "F1") (PStr "a.png")
                (PStr "not_found") []] in
  delete_loop sample_world "xoxp" files_list_uri
    [sample_record "F1" "a.png" "image/png" 100] 0 [] = (Ok tt, 0 + 1, tr3) /\
  exists r c' evs,
    delete_loop sample_world "xoxp" files_list_uri sample_records 0 [] =
      (r, c', tr3 ++ item_request "xoxp" (PStr "F3") :: evs) /\
    0 + 2 <= c'.
Proof.
  intros tr3.
  destruct (refused_record_is_counted_and_skipped sample_world "xoxp"
              (sample_record "F1" "a.png" "image/png" 100)
              [sample_record "F3" "c.mp4" "video/mp4" 7] 0 []
              (PStr "F1") (PStr "a.png") (PBool false) (PStr "not_found")
              (PDict (<["ok" := PBool false]>
                        (<["error" := PStr "not_found"]> ∅)))
              "not_found" eq_refl eq_refl eq_refl eq_refl eq_refl eq_refl
              eq_refl eq_refl)
    as (_ & Hone & _ & Hnext).
  split; [exact Hone|].
  exact (Hnext (sample_record "F3" "c.mp4" "video/mp4" 7) [] (PStr "F3")
           eq_refl eq_refl).
Defined.

(** C10: the counter is raised before the request is sent.  When the
    records before the k-th are processed normally and the request for the
    k-th, or the parsing of its answer, raises [e], then [delete_files]
    raises [e], and its last line reports k attempted deletions. *)
Theorem failed_request_is_counted (w : world) (token : string)
    (pre post : list (gmap string pyval)) (f : gmap string pyval)
    (ss : list Z) (rows : list (list pyval)) (tr tr2 : trace) (c : Z)
    (id : pyval) (e : exn) :
  let files := pre ++ f :: post in
  let n := Z.of_nat (length files) in
  let size := foldr Z.add 0 ss in
  let tr1 := tr ++ [found w n size tr; EPrint (Listing rows)] in
  let params := <["token" := PStr token]> (<["file" := id]> ∅) in
  let k := Z.of_nat (length pre) + 1 in
  Forall2 (size_of w) files ss ->
  mapM listing_row files = Ok rows ->
  delete_loop w token files_list_uri pre 0 tr1 = (Ok tt, c, tr2) ->
  f !! "id" = Some id ->
  requests_get w tr2 files_list_uri params = Raise e \/
  (exists text, requests_get w tr2 files_list_uri params = Ok text /\
                json_loads w text = Raise e) ->
  delete_files w token files false tr =
  (Raise e,
   tr2 ++ [item_request token id;
           summary w size n k (tr2 ++ [item_request token id])]).
Proof.
  intros files n size tr1 params k Hss Hrows Hpre Hid Hraise.
  pose proof (delete_loop_count _ _ _ _ _ _ _ _ _ Hpre) as Hc.
  assert (Hloop : delete_loop w token files_list_uri files 0 tr1 =
                  (Raise e, k, tr2 ++ [item_request token id])).
  { unfold files. rewrite delete_loop_app, Hpre. simpl.
    rewrite (delete_item_raises w token f tr2 id e Hid Hraise).
    unfold k. subst c. reflexivity. }
  rewrite (delete_files_run w token files false tr ss
             (sizes_Forall2 _ _ _ Hss)).
  rewrite py_sum_foldr. fold n. fold size.
  rewrite report_run, Hrows. fold tr1. rewrite Hloop.
  rewrite <- app_assoc. reflexivity.
Qed.

Lemma failed_request_is_counted_witness :
  let tr1 := [found failing_world 2 107 []; EPrint (Listing sample_rows)] in
  let tr2 := tr1 ++ [item_request "xoxp" (PStr "F1"); ESleep 2;
                     unable failing_world (PStr "F1") (PStr "a.png")
                       (PStr "not_found") []] in
  delete_files failing_world "xoxp" sample_records false [] =
  (Raise (OtherError "ConnectionError"),
   tr2 ++ [item_request "xoxp" (PStr "F3");
           summary failing_world 107 2 2
             (tr2 ++ [item_request "xoxp" (PStr "F3")])]).
Proof.
  intros tr1 tr2.
  apply (failed_request_is_counted failing_world "xoxp"
           [sample_record "F1" "a.png" "image/png" 100] []
           (sample_record "F3" "c.mp4" "video/mp4" 7)
           [100; 7] sample_rows [] tr2 1 (PStr "F3")
           (OtherError "ConnectionError")).
  - apply sample_sizes.
  - reflexivity.
  - vm_compute. reflexivity.
  - reflexivity.
  - left. reflexivity.
Defined.

(** ** The entry point *)

Lemma main_try_run (w : world) (o : options) (tr : trace) :
  main_try w o tr =
  match list_files w (o_token o) (o_days o) (o_count o)
          (tr ++ [EPrint (Text "[*] Fetching file list..")]) with
  | (Raise e, tr1) => (Raise e, tr1)
  | (Ok files, tr1) =>
      match delete_files w (o_token o) files (o_dry_run o)
              (tr1 ++ [EPrint (Text "[*] Deleting files..")]) with
      | (Raise e, tr2) => (Raise e, tr2)
      | (Ok _, tr2) => (Ok tt, tr2 ++ [EPrint (Text "[*] Done")])
      end
  end.
Proof.
  unfold main_try. run.
  destruct (list_files w (o_token o) (o_days o) (o_count o) _)
    as [[files|e] tr1]; [|reflexivity].
  destruct (delete_files w (o_token o) files (o_dry_run o) _)
    as [[u|e] tr2]; reflexivity.
Qed.

Lemma main_try_raises (w : world) (o : options) (tr tr' : trace) (e : exn) :
  sequence_raises w o tr e tr' -> main_try w o tr = (Raise e, tr').
Proof.
  intros [H | (files & tr1 & H1 & H2)]; rewrite main_try_run.
  - rewrite H. reflexivity.
  - rewrite H1, H2. reflexivity.
Qed.

(** C8: when the Lister or the Deleter raises [KeyboardInterrupt], [main]
    prints the abort notice and exits with status 1 ([SystemExit(1)]); an
    exception of any other type leaves [main] as it was raised, and no
    notice is printed. *)
Theorem interruption_aborts (w : world) (o : options) (tr tr' : trace)
    (e : exn) :
  sequence_raises w o tr e tr' ->
  (e = KeyboardInterrupt ->
   main w o tr = (Raise (SystemExit 1), tr' ++ [EPrint (Text aborted)])) /\
  (e <> KeyboardInterrupt -> main w o tr = (Raise e, tr')).
Proof.
  intros H. apply main_try_raises in H. unfold main. rewrite H. split.
  - intros ->. reflexivity.
  - intros He. destruct e; congruence.
Qed.

Lemma interruption_aborts_witness :
  let tr' := snd (main_try interrupted_world sample_options []) in
  last tr' = Some (summary interrupted_world 107 2 1 []) /\
  main interrupted_world sample_options [] =
  (Raise (SystemExit 1), tr' ++ [EPrint (Text aborted)]).
Proof.
  intros tr'. split; [vm_compute; reflexivity|].
  apply (interruption_aborts interrupted_world sample_options [] tr'
           KeyboardInterrupt); [|reflexivity].
  right.
  exists sample_records,
    (snd (list_files interrupted_world "xoxp" 30 1000
            [EPrint (Text "[*] Fetching file list..")])).
  split; vm_compute; reflexivity.
Defined.

(** ** More on the listing *)

Lemma list_files_answered (w : world) (token : string) (days count : Z)
    (tr : trace) (text : string) (body : gmap string pyval) :
  (forall tr' params, requests_get w tr' files_list_uri params = Ok text) ->
  json_loads w text = Ok (PDict body) ->
  fst (list_files w token days count tr) =
  (resp ← dict_getitem body "files"; items ← py_iter resp; collect w items []).
Proof.
  intros Hget Hjson.
  erewrite list_files_run by (rewrite list_params_run; reflexivity).
  simpl. rewrite Hget. simpl. rewrite Hjson. reflexivity.
Qed.

Lemma list_files_collect (w : world) (token : string) (days count : Z)
    (tr : trace) (files : list (gmap string pyval)) :
  fst (list_files w token days count tr) = Ok files ->
  exists items, collect w items [] = Ok files.
Proof.
  erewrite list_files_run by (rewrite list_params_run; reflexivity).
  simpl.
  destruct (requests_get w _ _ _) as [text|]; [simpl|discriminate].
  destruct (json_loads w text) as [v|]; [simpl|discriminate].
  destruct (getitem v "files") as [resp|]; [simpl|discriminate].
  destruct (py_iter resp) as [items|]; [simpl|discriminate].
  eauto.
Qed.

Lemma file_record_fields (w : world) (f : pyval) (r : gmap string pyval) :
  file_record w f = Ok r ->
  exists id name ts t m sz,
    getitem f "id" = Ok id /\ getitem f "name" = Ok name /\
    getitem f "timestamp" = Ok ts /\ fromtimestamp w ts = Ok t /\
    getitem f "mimetype" = Ok m /\ getitem f "size" = Ok sz /\
    r = <["id" := id]> (<["name" := name]> (<["timestamp" := PStr t]>
          (<["mimetype" := m]> (<["size" := sz]> ∅)))).
Proof.
  unfold file_record. run.
  destruct (getitem f "id") as [id|]; [|discriminate].
  destruct (getitem f "name") as [name|]; [|discriminate].
  destruct (getitem f "timestamp") as [ts|]; [|discriminate].
  destruct (fromtimestamp w ts) as [t|] eqn:Ht; [|discriminate].
  destruct (getitem f "mimetype") as [m|]; [|discriminate].
  destruct (getitem f "size") as [sz|]; [|discriminate].
  intros [= <-]. exists id, name, ts, t, m, sz. repeat split; auto.
Qed.

Lemma collect_order (w : world) (resp : list pyval) :
  forall acc files,
    collect w resp acc = Ok files ->
    exists recs,
      files = acc ++ recs /\
      Forall2 (fun f r => file_record w f = Ok r) (List.filter kept resp) recs.
Proof.
  induction resp as [|f rest IH]; intros acc files; simpl.
  - intros [= <-]. exists []. rewrite app_nil_r.
    split; [reflexivity|constructor].
  - unfold kept. destruct (is_media f) as [[|]|e]; simpl; [| |discriminate].
    + destruct (file_record w f) as [r|e] eqn:Hr; simpl; [|discriminate].
      intros H. destruct (IH _ _ H) as (recs & -> & HF).
      exists (r :: recs). rewrite <- app_assoc. split; [reflexivity|].
      constructor; assumption.
    + apply IH.
Qed.

(** X1: every record [list_files] returns has exactly the five keys id,
    name, timestamp, mimetype and size, and its timestamp is a string; so
    the table of line 112 of [delete_files] can always be built from what
    [list_files] returns. *)
Theorem listed_records_shape (w : world) (token : string) (days count : Z)
    (tr : trace) (files : list (gmap string pyval)) :
  fst (list_files w token days count tr) = Ok files ->
  Forall (fun r => dom r = record_keys /\
                   exists t, r !! "timestamp" = Some (PStr t)) files /\
  exists rows, mapM listing_row files = Ok rows.
Proof.
  intros H. apply list_files_collect in H as [items H].
  apply collect_order in H as (recs & -> & HF). simpl.
  remember (List.filter kept items) as fs eqn:E. clear E items.
  induction HF as [|f r fs recs Hr _ [IH1 [rows IH2]]].
  - split; [constructor | exists []; reflexivity].
  - apply file_record_fields in Hr
      as (id & name & ts & t & m & sz & _ & _ & _ & _ & _ & _ & ->).
    split.
    + constructor; [|exact IH1]. split.
      * unfold record_keys. rewrite !dom_insert_L, dom_empty_L. set_solver.
      * exists t. rewrite lookup_insert_ne by discriminate.
        rewrite lookup_insert_ne by discriminate. apply lookup_insert_eq.
    + rewrite mapM_cons, IH2. unfold listing_row, dict_getitem.
      repeat (rewrite lookup_insert_eq ||
              rewrite lookup_insert_ne by discriminate).
      simpl. eauto.
Qed.

Lemma listed_records_shape_witness :
  Forall (fun r => dom r = record_keys /\
                   exists t, r !! "timestamp" = Some (PStr t)) sample_records /\
  exists rows, mapM listing_row sample_records = Ok rows.
Proof.
  apply (listed_records_shape listing_world "xoxp" 30 1000 []).
  vm_compute. reflexivity.
Defined.

(** X2: the records [list_files] returns are, one for one and in the order
    of the response, those of the file objects that pass the MIME test;
    each keeps the id of its file object. *)
Theorem listing_in_response_order (w : world) (token : string) (days count : Z)
    (tr : trace) (text : string) (body : gmap string pyval)
    (resp : list pyval) (files : list (gmap string pyval)) :
  (forall tr' params, requests_get w tr' files_list_uri params = Ok text) ->
  json_loads w text = Ok (PDict body) ->
  body !! "files" = Some (PList resp) ->
  fst (list_files w token days count tr) = Ok files ->
  Forall2 (fun f r => file_record w f = Ok r /\
                      dict_getitem r "id" = getitem f "id")
          (List.filter kept resp) files.
Proof.
  intros Hget Hjson Hfiles.
  rewrite (list_files_answered w token days count tr text body Hget Hjson).
  unfold dict_getitem. rewrite Hfiles. simpl. intros H.
  apply collect_order in H as (recs & -> & HF). simpl.
  eapply Forall2_impl; [exact HF|]. intros f r Hr. split; [exact Hr|].
  apply file_record_fields in Hr
    as (id & name & ts & t & m & sz & Hid & _ & _ & _ & _ & _ & ->).
  rewrite Hid. unfold dict_getitem. rewrite lookup_insert_eq. reflexivity.
Qed.

Lemma listing_in_response_order_witness :
  Forall2 (fun f r => file_record listing_world f = Ok r /\
                      dict_getitem r "id" = getitem f "id")
          (List.filter kept sample_listing) sample_records.
Proof.
  apply (listing_in_response_order listing_world "xoxp" 30 1000 [] "listing"
           sample_body sample_listing sample_records).
  - intros tr' params. reflexivity.
  - reflexivity.
  - reflexivity.
  - vm_compute. reflexivity.
Defined.

(** X5: when the remote answers the listing request with an object without
    the field [files] (as it does for a refused call), [main] ends with
    [KeyError('files')]: it has printed two lines and sent the one
    request, and neither the Deleter nor the abort notice follows. *)
Theorem listing_without_files_field (w : world) (o : options) (tr : trace)
    (text : string) (body : gmap string pyval) :
  (forall tr' params, requests_get w tr' files_list_uri params = Ok text) ->
  json_loads w text = Ok (PDict body) ->
  body !! "files" = None ->
  let tr0 := tr ++ [EPrint (Text "[*] Fetching file list..")] in
  exists params,
    main w o tr =
    (Raise (KeyError "files"),
     tr0 ++ [banner w (o_days o) tr0; EGet files_list_uri params]).
Proof.
  intros Hget Hjson Hfiles tr0. eexists.
  unfold main. rewrite main_try_run. fold tr0.
  erewrite list_files_run by (rewrite list_params_run; reflexivity).
  simpl. rewrite Hget. simpl. rewrite Hjson. simpl.
  unfold dict_getitem. rewrite Hfiles. reflexivity.
Qed.

Lemma listing_without_files_field_witness :
  exists params,
    main denied_world sample_options [] =
    (Raise (KeyError "files"),
     [EPrint (Text "[*] Fetching file list..");
      banner denied_world 30 [EPrint (Text "[*] Fetching file list..")];
      EGet files_list_uri params]).
Proof.
  apply (listing_without_files_field denied_world sample_options [] "not_found"
           (<["ok" := PBool false]> (<["error" := PStr "not_found"]> ∅))).
  - intros tr' params. reflexivity.
  - reflexivity.
  - reflexivity.
Defined.

Lemma is_media_skipped (f : pyval) : skipped_file f -> is_media f = Ok false.
Proof.
  intros (d & m & -> & Hm & Hno).
  pose proof (is_media_iff d m Hm) as Hiff.
  rewrite (is_media_str d m Hm) in *.
  destruct (_ || _); [|reflexivity].
  exfalso. apply Hno, Hiff. reflexivity.
Qed.

Lemma collect_mixed (w : world) (resp : list pyval) :
  Forall (fun f => listed_file w f \/ skipped_file f) resp ->
  forall acc, exists files, collect w resp acc = Ok files.
Proof.
  induction 1 as [|f rest [Hf|Hf] _ IH]; intros acc; simpl.
  - eauto.
  - destruct (is_media_total w f Hf) as [b ->].
    destruct (file_record_listed w f Hf) as [r Hr]. simpl.
    destruct b; [rewrite Hr; simpl|]; apply IH.
  - rewrite (is_media_skipped f Hf). simpl. apply IH.
Qed.

Lemma collect_app (w : world) (pre post : list pyval) :
  forall acc,
    collect w (pre ++ post) acc =
    (files ← collect w pre acc; collect w post files).
Proof.
  induction pre as [|f pre IH]; intros acc; simpl; [reflexivity|].
  destruct (is_media f) as [[|]|e]; simpl; [| apply IH | reflexivity].
  destruct (file_record w f) as [r|e]; simpl; [apply IH | reflexivity].
Qed.

(** X3: the fields other than the MIME type are read for media files only:
    a listing succeeds when every file object is either complete or a
    dict whose MIME type is a string of no media kind, whatever else that
    dict holds or lacks. *)
Theorem non_media_files_need_no_fields (w : world) (token : string)
    (days count : Z) (tr : trace) (text : string)
    (body : gmap string pyval) (resp : list pyval) :
  (forall tr' params, requests_get w tr' files_list_uri params = Ok text) ->
  json_loads w text = Ok (PDict body) ->
  body !! "files" = Some (PList resp) ->
  Forall (fun f => listed_file w f \/ skipped_file f) resp ->
  exists files, fst (list_files w token days count tr) = Ok files.
Proof.
  intros Hget Hjson Hfiles Hresp.
  rewrite (list_files_answered w token days count tr text body Hget Hjson).
  unfold dict_getitem. rewrite Hfiles. simpl.
  apply collect_mixed. exact Hresp.
Qed.

Lemma sample_file_listed (w : world) (id name m : string) (size : Z) :
  fromtimestamp w (PInt 0) = Ok "1970-01-01 00:00:00"%string ->
  listed_file w (sample_file id name m size).
Proof.
  intros H. unfold listed_file, sample_file.
  eexists _, _, _, _, _, _, _.
  split; [reflexivity|].
  repeat (rewrite lookup_insert_eq ||
          rewrite lookup_insert_ne by discriminate).
  repeat split; try reflexivity. exact H.
Qed.

Lemma non_media_files_need_no_fields_witness :
  exists files,
    fst (list_files (world_listing sparse_listing) "xoxp" 30 1000 []) =
    Ok files.
Proof.
  apply (non_media_files_need_no_fields (world_listing sparse_listing) "xoxp"
           30 1000 [] "listing" (<["files" := PList sparse_listing]> ∅)
           sparse_listing).
  - intros tr' params. reflexivity.
  - reflexivity.
  - reflexivity.
  - apply Forall_cons_2; [left; apply sample_file_listed; reflexivity|].
    apply Forall_cons_2; [right|].
    + exists (<["mimetype" := PStr "text/plain"]> ∅), "text/plain"%string.
      split; [reflexivity|]. split; [reflexivity|].
      unfold media_mimetype. rewrite <- !str_contains_occurs.
      vm_compute. intuition discriminate.
    + apply Forall_cons_2; [left; apply sample_file_listed; reflexivity|].
      apply Forall_nil_2.
Defined.

(** X4: one file object whose MIME type cannot be read (no such key, or
    not a dict) makes the whole listing raise that error, also when the
    file objects before it are in order; no partial list is returned. *)
Theorem bad_file_object_fails_listing (w : world) (token : string)
    (days count : Z) (tr : trace) (text : string)
    (body : gmap string pyval) (pre post : list pyval) (f : pyval) (e : exn) :
  (forall tr' params, requests_get w tr' files_list_uri params = Ok text) ->
  json_loads w text = Ok (PDict body) ->
  body !! "files" = Some (PList (pre ++ f :: post)) ->
  Forall (fun f => listed_file w f \/ skipped_file f) pre ->
  getitem f "mimetype" = Raise e ->
  fst (list_files w token days count tr) = Raise e.
Proof.
  intros Hget Hjson Hfiles Hpre Hf.
  rewrite (list_files_answered w token days count tr text body Hget Hjson).
  unfold dict_getitem. rewrite Hfiles. simpl.
  rewrite collect_app.
  destruct (collect_mixed w pre Hpre []) as [files ->]. simpl.
  unfold is_media, mimetypes. simpl. rewrite Hf. reflexivity.
Qed.

Lemma bad_file_object_fails_listing_witness :
  fst (list_files (world_listing broken_listing) "xoxp" 30 1000 []) =
  Raise (KeyError "mimetype").
Proof.
  apply (bad_file_object_fails_listing (world_listing broken_listing) "xoxp"
           30 1000 [] "listing" (<["files" := PList broken_listing]> ∅)
           [sample_file "F1" "a.png" "image/png" 100]
           [sample_file "F3" "c.mp4" "video/mp4" 7]
           (PDict (<["id" := PStr "F2"]> ∅))).
  - intros tr' params. reflexivity.
  - reflexivity.
  - reflexivity.
  - apply Forall_cons_2; [left; apply sample_file_listed; reflexivity|].
    apply Forall_nil_2.
  - reflexivity.
Defined.

(** ** More on the deletion *)

Lemma sizes_unreadable (w : world) (files : list (gmap string pyval))
    (f : gmap string pyval) :
  f ∈ files -> unreadable_size w f -> exists e, sizes w files = Raise e.
Proof.
  unfold sizes. intros Hin Hf.
  induction files as [|g rest IH]; [inversion Hin|].
  rewrite mapM_cons.
  destruct (v ← dict_getitem g "size"; py_int w v) as [z|e] eqn:Hg;
    [|simpl; eauto].
  apply elem_of_cons in Hin as [<-|Hin].
  - exfalso. unfold dict_getitem in Hg.
    destruct Hf as [Hf | (v & e & Hf & He)]; rewrite Hf in Hg; simpl in Hg;
      congruence.
  - destruct (IH Hin) as [e ->]. simpl. eauto.
Qed.

(** X6: when the size of one record cannot be read (no [size] key, or a
    value [int] refuses), [delete_files] raises
    [UnboundLocalError('size_to_delete')] from its [finally] block in
    place of the original error, in a dry run too, and prints and sends
    nothing. *)
Theorem unreadable_size_masks_error (w : world) (token : string)
    (files : list (gmap string pyval)) (view_only : bool) (tr : trace)
    (f : gmap string pyval) :
  f ∈ files -> unreadable_size w f ->
  delete_files w token files view_only tr =
  (Raise (UnboundLocalError "size_to_delete"), tr).
Proof.
  intros Hin Hf. destruct (sizes_unreadable w files f Hin Hf) as [e He].
  exact (delete_files_no_sizes w token files view_only tr e He).
Qed.

Lemma unreadable_size_masks_error_witness :
  delete_files sample_world "xoxp" (sample_records ++ [sizeless_record]) true []
  = (Raise (UnboundLocalError "size_to_delete"), []).
Proof.
  apply (unreadable_size_masks_error sample_world "xoxp"
           (sample_records ++ [sizeless_record]) true [] sizeless_record).
  - apply elem_of_app. right. apply list_elem_of_singleton. reflexivity.
  - right. exists PNone, TypeError. split; reflexivity.
Defined.

(** X7: for an empty list of records [delete_files] prints the totals
    (0 files, 0 bytes), an empty table and the final line with 0
    deletions, sends no request and returns normally, in a dry run and in
    a normal run alike. *)
Theorem nothing_to_delete (w : world) (token : string) (view_only : bool)
    (tr : trace) :
  let tr1 := tr ++ [found w 0 0 tr; EPrint (Listing [])] in
  delete_files w token [] view_only tr =
  (Ok tt, tr ++ [found w 0 0 tr; EPrint (Listing []); summary w 0 0 0 tr1]).
Proof.
  intros tr1. rewrite (delete_files_run w token [] view_only tr [] eq_refl).
  rewrite report_run. simpl. fold tr1.
  destruct view_only; unfold tr1; rewrite <- app_assoc; reflexivity.
Qed.

Lemma requests_app (l1 l2 : trace) :
  requests (l1 ++ l2) = requests l1 ++ requests l2.
Proof. apply List.filter_app. Qed.

(** The requests and sleeps of one round, for a record with an id. *)
Lemma delete_item_io (w : world) (token : string) (f : gmap string pyval)
    (id : pyval) (tr : trace) :
  f !! "id" = Some id ->
  exists r evs,
    delete_item w token files_list_uri f tr = (r, tr ++ evs) /\
    requests evs = [item_request token id] /\
    (remote_io evs = [item_request token id; ESleep wait_seconds] \/
     remote_io evs = [item_request token id] /\ exists e, r = Raise e).
Proof.
  intros Hid. unfold delete_item, dict_getitem. run. rewrite Hid.
  fold (item_request token id).
  repeat match goal with
         | |- context [match ?x with _ => _ end] => destruct x eqn:?
         | |- context [if ?x then _ else _] => destruct x eqn:?
         end; simpl; rewrite <- ?app_assoc; simpl;
    eexists _, _; (split; [reflexivity|]); (split; [reflexivity|]);
    solve [left; reflexivity | right; split; [reflexivity | eauto]].
Qed.

(** X8: whatever the remote does, the requests and sleeps of the loop are
    an initial part of the sequence "request for the record's id, sleep
    of 2 seconds" taken over the records in order: no record is skipped,
    asked for twice or asked for out of order.  The counter the loop
    leaves has grown by the number of requests sent. *)
Theorem loop_requests_follow_the_records (w : world) (token : string)
    (files : list (gmap string pyval)) (ids : list pyval) (c : Z)
    (tr : trace) :
  Forall2 (fun f id => f !! "id" = Some id) files ids ->
  exists r c' evs,
    delete_loop w token files_list_uri files c tr = (r, c', tr ++ evs) /\
    remote_io evs `prefix_of`
      flat_map (fun id => [item_request token id; ESleep 2]) ids /\
    c' = c + Z.of_nat (length (requests evs)).
Proof.
  intros Hids. revert c tr.
  induction Hids as [|f id files ids Hid _ IH]; intros c tr.
  - exists (Ok tt), c, []. rewrite app_nil_r. simpl.
    split; [reflexivity|]. split; [apply prefix_nil | lia].
  - destruct (delete_item_io w token f id tr Hid)
      as (r & evs & Hitem & Hreq & Hio).
    simpl. rewrite Hitem. destruct r as [u|e].
    + destruct (IH (c + 1) (tr ++ evs)) as (r' & c' & evs' & Hloop & Hpre & Hc).
      exists r', c', (evs ++ evs'). rewrite Hloop, <- app_assoc.
      split; [reflexivity|]. split.
      * rewrite remote_io_app.
        destruct Hio as [-> | [_ [e He]]]; [|discriminate].
        apply (prefix_app [item_request token id; ESleep wait_seconds]).
        exact Hpre.
      * rewrite requests_app, length_app, Hreq. simpl. lia.
    + exists (Raise e), (c + 1), evs. split; [reflexivity|]. split.
      * destruct Hio as [-> | [-> _]].
        -- eexists. simpl. reflexivity.
        -- eexists. simpl. reflexivity.
      * rewrite Hreq. simpl. lia.
Qed.

Lemma loop_requests_follow_the_records_witness :
  exists r c' evs,
    delete_loop failing_world "xoxp" files_list_uri sample_records 0 [] =
      (r, c', [] ++ evs) /\
    remote_io evs `prefix_of`
      flat_map (fun id => [item_request "xoxp" id; ESleep 2])
               [PStr "F1"; PStr "F3"] /\
    c' = 0 + Z.of_nat (length (requests evs)).
Proof.
  apply (loop_requests_follow_the_records failing_world "xoxp" sample_records
           [PStr "F1"; PStr "F3"] 0 []).
  repeat constructor.
Defined.

(** X9: a record whose request is answered with a true [ok] gets one
    request and one sleep, the line "Deleted" with its id, name and
    timestamp is printed, and the round ends normally with the counter one
    higher.  The loop then goes on: what it adds next, when a record
    follows, starts with the request for that record. *)
Theorem accepted_record_is_reported (w : world) (token : string)
    (f : gmap string pyval) (rest : list (gmap string pyval)) (c : Z)
    (tr : trace) (id name ts ok dresponse : pyval) (text : string) :
  let tr1 := tr ++ [item_request token id] in
  let tr2 := tr ++ [item_request token id; ESleep 2] in
  let tr3 := tr ++ [item_request token id; ESleep 2;
                    deleted w id name ts tr2] in
  f !! "id" = Some id -> f !! "name" = Some name ->
  f !! "timestamp" = Some ts ->
  requests_get w tr files_list_uri
    (<["token" := PStr token]> (<["file" := id]> ∅)) = Ok text ->
  json_loads w text = Ok dresponse ->
  time_sleep w tr1 2 = Ok tt ->
  getitem dresponse "ok" = Ok ok -> truthy ok = true ->
  delete_item w token files_list_uri f tr = (Ok tt, tr3) /\
  delete_loop w token files_list_uri [f] c tr = (Ok tt, c + 1, tr3) /\
  (exists r c' evs,
     delete_loop w token files_list_uri (f :: rest) c tr =
       (r, c', tr3 ++ evs) /\
     delete_loop w token files_list_uri rest (c + 1) tr3 =
       (r, c', tr3 ++ evs) /\
     c + 1 <= c') /\
  (forall g rest' id',
     rest = g :: rest' -> g !! "id" = Some id' ->
     exists r c' evs,
       delete_loop w token files_list_uri (f :: rest) c tr =
         (r, c', tr3 ++ item_request token id' :: evs) /\
       c + 2 <= c').
Proof.
  intros tr1 tr2 tr3 Hid Hn Hts Hg Hj Hsl Hok Ht.
  assert (Hitem : delete_item w token files_list_uri f tr = (Ok tt, tr3)).
  { unfold delete_item, dict_getitem. run.
    rewrite Hid, Hg, Hj. fold (item_request token id). fold tr1.
    unfold wait_seconds. rewrite Hsl, Hok, Ht, Hn, Hts.
    unfold tr3, deleted, tr2, tr1. rewrite <- !app_assoc. reflexivity. }
  split; [exact Hitem|]. split; [simpl; rewrite Hitem; reflexivity|]. split.
  - destruct (delete_loop_extends w token files_list_uri rest (c + 1) tr3)
      as (r & c' & evs & Hloop & Hc).
    exists r, c', evs. simpl. rewrite Hitem. auto.
  - intros g rest' id' -> Hg'.
    destruct (delete_loop_next w token g rest' id' (c + 1) tr3 Hg')
      as (r & c' & evs & Hloop & Hc).
    exists r, c', evs. simpl delete_loop at 1. rewrite Hitem.
    split; [exact Hloop | lia].
Qed.

Lemma accepted_record_is_reported_witness :
  let tr3 := [item_request "xoxp" (PStr "F3"); ESleep 2;
              deleted sample_world (PStr "F3") (PStr "c.mp4")
                (PStr "1970-01-01 00:00:00") []] in
  delete_loop sample_world "xoxp" files_list_uri
    [sample_record "F3" "c.mp4" "video/mp4" 7] 1 [] = (Ok tt, 1 + 1, tr3) /\
  exists r c' evs,
    delete_loop sample_world "xoxp" files_list_uri
      [sample_record "F3" "c.mp4" "video/mp4" 7;
       sample_record "F1" "a.png" "image/png" 100] 1 [] =
      (r, c', tr3 ++ item_request "xoxp" (PStr "F1") :: evs) /\
    1 + 2 <= c'.
Proof.
  intros tr3.
  destruct (accepted_record_is_reported sample_world "xoxp"
              (sample_record "F3" "c.mp4" "video/mp4" 7)
              [sample_record "F1" "a.png" "image/png" 100] 1 []
              (PStr "F3") (PStr "c.mp4") (PStr "1970-01-01 00:00:00")
              (PBool true) (PDict (<["ok" := PBool true]> ∅)) "deleted"
              eq_refl eq_refl eq_refl eq_refl eq_refl eq_refl eq_refl
              eq_refl)
    as (_ & Hone & _ & Hnext).
  split; [exact Hone|].
  exact (Hnext (sample_record "F1" "a.png" "image/png" 100) [] (PStr "F1")
           eq_refl eq_refl).
Defined.

(** X10: a round that fails after its request was answered (the sleep is
    interrupted, the answer has no readable [ok], or it is refused without
    an [error] field) ends the loop with that exception: the request and
    the sleep are in the trace, no line is printed for the record, the
    counter includes it, and the remaining records are not touched. *)
Theorem round_failing_after_request (w : world) (token : string)
    (f : gmap string pyval) (rest : list (gmap string pyval)) (c : Z)
    (tr : trace) (id name dresponse : pyval) (text : string) (e : exn) :
  let tr1 := tr ++ [item_request token id] in
  f !! "id" = Some id -> f !! "name" = Some name ->
  requests_get w tr files_list_uri
    (<["token" := PStr token]> (<["file" := id]> ∅)) = Ok text ->
  json_loads w text = Ok dresponse ->
  time_sleep w tr1 2 = Raise e \/
  time_sleep w tr1 2 = Ok tt /\ getitem dresponse "ok" = Raise e \/
  time_sleep w tr1 2 = Ok tt /\
    (exists ok, getitem dresponse "ok" = Ok ok /\ truthy ok = false) /\
    getitem dresponse "error" = Raise e ->
  delete_loop w token files_list_uri (f :: rest) c tr =
  (Raise e, c + 1, tr ++ [item_request token id; ESleep 2]).
Proof.
  intros tr1 Hid Hn Hg Hj Hfail. simpl.
  unfold delete_item, dict_getitem. run.
  rewrite Hid, Hg, Hj. fold (item_request token id). fold tr1.
  unfold wait_seconds.
  destruct Hfail as [Hsl | [[Hsl Hok] | (Hsl & (ok & Hok & Ht) & Herr)]].
  - rewrite Hsl. unfold tr1. rewrite <- app_assoc. reflexivity.
  - rewrite Hsl, Hok. unfold tr1. rewrite <- app_assoc. reflexivity.
  - rewrite Hsl, Hok, Ht, Hn, Herr. unfold tr1. rewrite <- app_assoc.
    reflexivity.
Qed.

Lemma round_failing_after_request_witness :
  delete_loop terse_world "xoxp" files_list_uri sample_records 0 [] =
  (Raise (KeyError "error"), 0 + 1,
   [] ++ [item_request "xoxp" (PStr "F1"); ESleep 2]).
Proof.
  apply (round_failing_after_request terse_world "xoxp"
           (sample_record "F1" "a.png" "image/png" 100)
           [sample_record "F3" "c.mp4" "video/mp4" 7] 0 []
           (PStr "F1") (PStr "a.png") (PDict (<["ok" := PBool false]> ∅))
           "terse" (KeyError "error")); try reflexivity.
  right. right. split; [reflexivity|]. split; [|reflexivity].
  exists (PBool false). split; reflexivity.
Defined.

(** ** What the Deleter adds to the trace *)

Lemma delete_item_kinds (w : world) (token : string)
    (f : gmap string pyval) (tr : trace) :
  exists evs, snd (delete_item w token files_list_uri f tr) = tr ++ evs /\
              Forall deleter_event evs.
Proof.
  unfold delete_item, dict_getitem. run.
  repeat match goal with
         | |- context [match ?x with _ => _ end] => destruct x eqn:?
         | |- context [if ?x then _ else _] => destruct x eqn:?
         end; simpl; rewrite <- ?app_assoc; simpl;
    (eexists; split; [reflexivity | repeat constructor]) ||
    (exists []; split; [symmetry; apply app_nil_r | constructor]).
Qed.

Lemma delete_loop_kinds (w : world) (token : string)
    (files : list (gmap string pyval)) (c : Z) (tr : trace) :
  exists evs, snd (delete_loop w token files_list_uri files c tr) = tr ++ evs /\
              Forall deleter_event evs.
Proof.
  revert c tr. induction files as [|f rest IH]; intros c tr; simpl.
  - exists []. split; [symmetry; apply app_nil_r | constructor].
  - destruct (delete_item_kinds w token f tr) as (evs & He & Hs).
    destruct (delete_item w token files_list_uri f tr) as [[u|e] tr1];
      simpl in He; subst tr1.
    + destruct (IH (c + 1) (tr ++ evs)) as (evs' & He' & Hs').
      exists (evs ++ evs'). rewrite He', app_assoc. split; [reflexivity|].
      apply Forall_app; auto.
    + exists evs. auto.
Qed.

Lemma delete_files_kinds (w : world) (token : string)
    (files : list (gmap string pyval)) (view_only : bool) (tr : trace) :
  exists evs, snd (delete_files w token files view_only tr) = tr ++ evs /\
              Forall deleter_event evs.
Proof.
  destruct (sizes w files) as [ss|e] eqn:Hs.
  - rewrite (delete_files_run w token files view_only tr ss Hs).
    rewrite report_run.
    destruct (mapM listing_row files) as [rows|e].
    + destruct view_only.
      * simpl. rewrite <- app_assoc. eexists. split; [reflexivity|].
        repeat constructor.
      * match goal with
        | |- context [delete_loop w token files_list_uri files 0 ?t] =>
            destruct (delete_loop_kinds w token files 0 t)
              as (evs & He & Hk);
            destruct (delete_loop w token files_list_uri files 0 t)
              as [[r c] tr2]
        end.
        simpl in He. subst tr2. simpl. rewrite <- !app_assoc.
        eexists. split; [reflexivity|].
        repeat (apply Forall_cons_2 || apply Forall_app_2);
          auto; repeat constructor.
    + simpl. rewrite <- app_assoc. eexists. split; [reflexivity|].
      repeat constructor.
  - rewrite (delete_files_no_sizes w token files view_only tr e Hs).
    exists []. split; [symmetry; apply app_nil_r | constructor].
Qed.

(** ** More on the entry point *)

(** [list_files] as a pair: its outcome, and the trace with the progress
    line and the one request. *)
Lemma list_files_pair (w : world) (token : string) (days count : Z)
    (tr : trace) :
  exists r params,
    list_files w token days count tr =
      (r, tr ++ [banner w days tr; EGet files_list_uri params]) /\
    params !! "file" = None /\
    r = (text ← requests_get w (tr ++ [banner w days tr]) files_list_uri params;
         v ← json_loads w text;
         resp ← getitem v "files";
         items ← py_iter resp;
         collect w items []).
Proof.
  eexists _, _. split; [|split].
  - apply list_files_run. rewrite list_params_run. reflexivity.
  - destruct (days =? 0);
      repeat rewrite lookup_insert_ne by discriminate; apply lookup_empty.
  - reflexivity.
Qed.

(** X11: with the dry-run flag set, a whole run of [main] sends exactly one
    request, the listing one (it names no file), and never sleeps,
    whatever the remote answers. *)
Theorem dry_run_sends_the_listing_request_only (w : world) (o : options)
    (tr : trace) :
  o_dry_run o = true ->
  exists params,
    remote_io (added tr (snd (main w o tr))) = [EGet files_list_uri params] /\
    params !! "file" = None.
Proof.
  intros Hdry. unfold main. rewrite main_try_run, Hdry.
  destruct (list_files_pair w (o_token o) (o_days o) (o_count o)
              (tr ++ [EPrint (Text "[*] Fetching file list..")]))
    as (r & params & -> & Hp & _).
  exists params. split; [|exact Hp].
  destruct r as [files|e].
  - match goal with
    | |- context [delete_files w (o_token o) files true ?t] =>
        destruct (delete_files_kinds w (o_token o) files true t)
          as (evs & He & _);
        pose proof (dry_run_silent w (o_token o) files t) as Hio;
        destruct (delete_files w (o_token o) files true t) as [[u|e] tr2]
    end; simpl in He, Hio; subst tr2; rewrite added_app in Hio;
      unfold remote_io in *.
    + simpl. rewrite <- !app_assoc, added_app. simpl.
      rewrite List.filter_app, Hio. reflexivity.
    + destruct e; simpl; rewrite <- !app_assoc, added_app; simpl;
        rewrite ?List.filter_app, Hio; reflexivity.
  - destruct e; simpl; rewrite <- !app_assoc, added_app; reflexivity.
Qed.

Lemma dry_run_sends_the_listing_request_only_witness :
  exists params,
    remote_io
      (added [] (snd (main sample_world
                        {| o_token := "xoxp"; o_days := 30; o_count := 1000;
                           o_dry_run := true |} []))) =
    [EGet files_list_uri params] /\
    params !! "file" = None.
Proof.
  apply (dry_run_sends_the_listing_request_only sample_world
           {| o_token := "xoxp"; o_days := 30; o_count := 1000;
              o_dry_run := true |} []).
  reflexivity.
Defined.

Ltac absent Hk :=
  let H := fresh "H" in
  intros H; decompose [or] H; clear H; try discriminate; try tauto;
  match goal with
  | Hin : _ ∈ [] |- _ => inversion Hin
  | Hin : _ ∈ _ |- _ => destruct (Hk _ Hin)
  end.

(** X12: [main] prints "[*] Done" exactly when it returns normally, and
    it prints the abort notice only when it exits with status 1. *)
Theorem done_and_abort_notices (w : world) (o : options) (tr : trace) :
  (EPrint (Text "[*] Done") ∈ added tr (snd (main w o tr)) <->
   fst (main w o tr) = Ok tt) /\
  (EPrint (Text aborted) ∈ added tr (snd (main w o tr)) ->
   fst (main w o tr) = Raise (SystemExit 1)).
Proof.
  unfold main. rewrite main_try_run.
  destruct (list_files_pair w (o_token o) (o_days o) (o_count o)
              (tr ++ [EPrint (Text "[*] Fetching file list..")]))
    as (r & params & -> & _ & _).
  unfold banner.
  destruct r as [files|e].
  - match goal with
    | |- context [delete_files w (o_token o) files ?v ?t] =>
        destruct (delete_files_kinds w (o_token o) files v t)
          as (evs & He & Hk);
        destruct (delete_files w (o_token o) files v t) as [[[]|e] tr2]
    end; simpl in He; subst tr2; rewrite Forall_forall in Hk.
    + simpl. rewrite <- !app_assoc, added_app. simpl.
      rewrite !elem_of_cons, !elem_of_app, !elem_of_cons.
      split; [split; [reflexivity | tauto]|]. absent Hk.
    + destruct e; simpl; rewrite <- !app_assoc, added_app; simpl;
        rewrite !elem_of_cons, ?elem_of_app, ?elem_of_cons;
        (split; [split; [|discriminate]|]); try reflexivity; absent Hk.
  - destruct e; simpl; rewrite <- !app_assoc, added_app; simpl;
      rewrite !elem_of_cons;
      (split; [split; [|discriminate]|]); try reflexivity; absent Hk.
Qed.

Lemma delete_files_answered (w : world) (token : string)
    (files : list (gmap string pyval)) (ids : list pyval) (tr : trace) :
  answers w -> uninterrupted w -> Forall (well_formed w) files ->
  Forall2 (fun f id => f !! "id" = Some id) files ids ->
  exists evs,
    delete_files w token files false tr = (Ok tt, tr ++ evs) /\
    remote_io evs =
      flat_map (fun id => [item_request token id; ESleep wait_seconds]) ids.
Proof.
  intros Hans Hsl Hwf Hids.
  destruct (well_formed_sizes w files Hwf) as [ss Hss].
  destruct (well_formed_rows w files Hwf) as [rows Hrows].
  rewrite (delete_files_run w token files false tr ss
             (sizes_Forall2 _ _ _ Hss)).
  rewrite report_run, Hrows.
  match goal with
  | |- context [delete_loop w token files_list_uri files 0 ?t] =>
      destruct (delete_loop_answered w token files ids Hans Hsl Hwf Hids 0 t)
        as (evs & Hloop & Hio); rewrite Hloop
  end.
  rewrite <- !app_assoc. eexists. split; [reflexivity|].
  simpl. rewrite remote_io_app, Hio. simpl. apply app_nil_r.
Qed.

Lemma Forall_list_filter {A : Type} (P : A -> Prop) (g : A -> bool)
    (l : list A) :
  Forall P l -> Forall P (List.filter g l).
Proof.
  induction 1 as [|x l Hx _ IH]; simpl; [constructor|].
  destruct (g x); [constructor|]; assumption.
Qed.

(** The records built from file objects with readable sizes are well formed,
    and carry the ids of the file objects. *)
Lemma records_well_formed (w : world) (fs : list pyval)
    (files : list (gmap string pyval)) :
  Forall2 (fun f r => file_record w f = Ok r) fs files ->
  Forall (fun f => exists v z, getitem f "size" = Ok v /\ py_int w v = Ok z)
         fs ->
  Forall (well_formed w) files /\
  exists ids, Forall2 (fun f id => getitem f "id" = Ok id) fs ids /\
              Forall2 (fun r id => r !! "id" = Some id) files ids.
Proof.
  induction 1 as [|f r fs files Hr _ IH]; intros Hsz.
  - split; [constructor|]. exists []. split; constructor.
  - apply Forall_cons in Hsz as [(v & z & Hv & Hz) Hsz].
    destruct (IH Hsz) as (Hwf & ids & Hids1 & Hids2).
    apply file_record_fields in Hr
      as (id & name & ts & t & m & sz & Hid & _ & _ & _ & _ & Hsize & ->).
    rewrite Hsize in Hv. injection Hv as ->.
    split.
    + constructor; [|exact Hwf]. unfold well_formed.
      repeat (rewrite lookup_insert_eq ||
              rewrite lookup_insert_ne by discriminate).
      repeat split; eauto.
    + exists (id :: ids). split; constructor; auto.
Qed.

(** X13: in a normal run against a remote that answers every request, with
    a well-formed listing, [main] returns normally and its requests are
    the listing request followed, for each media file of the listing in
    listing order, by one request carrying that file's id and a sleep of
    2 seconds; files of other MIME types are never asked for. *)
Theorem main_deletes_the_listed_media (w : world) (o : options) (tr : trace)
    (text : string) (body : gmap string pyval) (resp : list pyval) :
  o_dry_run o = false ->
  answers w -> uninterrupted w ->
  (forall tr' params,
     params !! "file" = None ->
     requests_get w tr' files_list_uri params = Ok text) ->
  json_loads w text = Ok (PDict body) ->
  body !! "files" = Some (PList resp) ->
  Forall (listed_file w) resp ->
  Forall (fun f => exists v z, getitem f "size" = Ok v /\ py_int w v = Ok z)
         resp ->
  exists params ids,
    Forall2 (fun f id => getitem f "id" = Ok id) (List.filter kept resp) ids /\
    fst (main w o tr) = Ok tt /\
    remote_io (added tr (snd (main w o tr))) =
      EGet files_list_uri params ::
      flat_map (fun id => [item_request (o_token o) id; ESleep 2]) ids.
Proof.
  intros Hrun Hans Hsl Hget Hjson Hfiles Hresp Hsz.
  unfold main. rewrite main_try_run, Hrun.
  destruct (list_files_pair w (o_token o) (o_days o) (o_count o)
              (tr ++ [EPrint (Text "[*] Fetching file list..")]))
    as (r & params & -> & Hp & ->).
  rewrite (Hget _ _ Hp). simpl. rewrite Hjson. simpl.
  unfold dict_getitem. rewrite Hfiles. simpl.
  destruct (collect_mixed w resp) with (acc := @nil (gmap string pyval))
    as [files Hc].
  { eapply Forall_impl; [exact Hresp | auto]. }
  rewrite Hc.
  apply collect_order in Hc as (recs & -> & HF). simpl in HF |- *.
  destruct (records_well_formed w _ _ HF (Forall_list_filter _ kept _ Hsz))
    as (Hwf & ids & Hids1 & Hids2).
  exists params, ids. split; [exact Hids1|].
  match goal with
  | |- context [delete_files w (o_token o) recs false ?t] =>
      destruct (delete_files_answered w (o_token o) recs ids t
                  Hans Hsl Hwf Hids2) as (evs & -> & Hio)
  end.
  simpl. split; [reflexivity|].
  rewrite <- !app_assoc, added_app. unfold remote_io in *. simpl.
  rewrite List.filter_app, Hio. simpl. rewrite app_nil_r. reflexivity.
Qed.

Lemma sample_listing_sizes (w : world) :
  Forall (fun f => exists v z, getitem f "size" = Ok v /\ py_int w v = Ok z)
         sample_listing.
Proof.
  repeat (apply Forall_cons_2 || apply Forall_nil_2);
    eexists _, _; split; reflexivity.
Qed.

Lemma main_deletes_the_listed_media_witness :
  exists params ids,
    Forall2 (fun f id => getitem f "id" = Ok id)
            (List.filter kept sample_listing) ids /\
    fst (main sample_world sample_options []) = Ok tt /\
    remote_io (added [] (snd (main sample_world sample_options []))) =
      EGet files_list_uri params ::
      flat_map (fun id => [item_request "xoxp" id; ESleep 2]) ids.
Proof.
  apply (main_deletes_the_listed_media sample_world sample_options []
           "listing" sample_body sample_listing).
  - reflexivity.
  - exact sample_answers.
  - intros tr secs. reflexivity.
  - intros tr' params Hp. simpl. unfold sample_get. rewrite Hp. reflexivity.
  - reflexivity.
  - reflexivity.
  - repeat (apply Forall_cons_2 || apply Forall_nil_2);
      apply sample_file_listed; reflexivity.
  - apply sample_listing_sizes.
Defined.

(** X14: when a record [list_files] returned has a size that cannot be
    read, [main] ends with [UnboundLocalError('size_to_delete')] right
    after the line "[*] Deleting files..": nothing is reported and no
    deletion is requested. *)
Theorem unreadable_size_stops_main (w : world) (o : options) (tr tr1 : trace)
    (files : list (gmap string pyval)) (f : gmap string pyval) :
  list_files w (o_token o) (o_days o) (o_count o)
    (tr ++ [EPrint (Text "[*] Fetching file list..")]) = (Ok files, tr1) ->
  f ∈ files -> unreadable_size w f ->
  main w o tr =
  (Raise (UnboundLocalError "size_to_delete"),
   tr1 ++ [EPrint (Text "[*] Deleting files..")]).
Proof.
  intros Hlist Hin Hf. unfold main. rewrite main_try_run, Hlist.
  destruct (sizes_unreadable w files f Hin Hf) as [e He].
  rewrite (delete_files_no_sizes w (o_token o) files (o_dry_run o) _ e He).
  reflexivity.
Qed.

Lemma unreadable_size_stops_main_witness :
  main (world_listing sizeless_listing) sample_options [] =
  (Raise (UnboundLocalError "size_to_delete"),
   snd (list_files (world_listing sizeless_listing) "xoxp" 30 1000
          ([] ++ [EPrint (Text "[*] Fetching file list..")])) ++
   [EPrint (Text "[*] Deleting files..")]).
Proof.
  apply (unreadable_size_stops_main (world_listing sizeless_listing)
           sample_options [] _ [sizeless_record] sizeless_record).
  - vm_compute. reflexivity.
  - apply list_elem_of_singleton. reflexivity.
  - right. exists PNone, TypeError. split; reflexivity.
Defined.
